(** * check_scmd: a Nagios/Icinga probe for the SCMD signature service

    Shallow embedding of [check_scmd.py] and the properties of its status
    line, status level and exit code.

    Conventions of the embedding.
    - Python [str] values are byte strings (the UTF-8 encoding of the text
      that reaches standard output).
    - Python [int] values are [Z]; Python [float] values are the rationals
      they denote ([Q]); the mixed comparison [float > int] is exact in
      Python, so it is the order of [Q].
    - Effects (standard output, the clock, the alarm signal, exceptions)
      live in a small monad over an explicit world. *)

From Stdlib Require Import String Ascii List ZArith QArith Qround Bool Lia.
From Stdlib Require Import DecimalString.
Import ListNotations.

Local Open Scope string_scope.
Local Open Scope Z_scope.

(** ** Python strings *)

Module PyString.

(** The double quote character, as a one-character string. *)
Definition dquote : string := String (ascii_of_nat 34) EmptyString.

(** [sep.join(xs)] *)
Fixpoint join (sep : string) (xs : list string) : string :=
  match xs with
  | [] => ""
  | [x] => x
  | x :: rest => x ++ sep ++ join sep rest
  end.

(** ['%d' % n] and [str(n)] for an [int]. *)
Definition of_int (n : Z) : string := NilEmpty.string_of_int (Z.to_int n).

(** [s.startswith(p)] *)
Definition startswith (p s : string) : bool :=
  String.prefix p s.

End PyString.

(** The [str()] protocol: every value put in a status line goes through
    [str]. *)
Class PyStr (A : Type) := str : A -> string.

#[export] Instance PyStr_string : PyStr string := fun s => s.
#[export] Instance PyStr_int : PyStr Z := PyString.of_int.

(** ** Exceptions, events and the world *)

(** The exceptions of a run.  The ones the interpreter raises in the code
    modelled below have a constructor each; [External] is any other
    exception, raised inside a library (zeep, requests, pem, OpenSSL,
    argparse), given by its class name and message. *)
Inductive exn : Type :=
| SystemExit (code : option Z)
| RuntimeError (msg : string)
| IndexError
| TypeError
| AttributeError
| OverflowError
| External (cls msg : string).

(** [isinstance(e, SystemExit)] *)
Definition is_SystemExit (e : exn) : bool :=
  match e with SystemExit _ => true | _ => false end.

(** What a run does to the outside. *)
Inductive event : Type :=
| Print (line : string)          (* print(line): one line on standard output *)
| ClockRead (t : Q)              (* time.time() returned t *)
| HandlerInstalled (n : Z)       (* signal.signal(SIGALRM, partial(handle_sigalrm, timeout=n)) *)
| AlarmArmed (n : Z)             (* signal.alarm(n) *)
| AlarmFired (t : Q).            (* SIGALRM delivered at clock value t *)

(** How long a blocking call takes: a number of seconds, or it never
    returns. *)
Inductive duration : Type :=
| Seconds (d : Q)
| Forever.

(** The world of a run: the wall clock, the pending alarm (absolute clock
    value), the installed SIGALRM handler (the [timeout] argument of the
    partial application of [handle_sigalrm]) and what has happened so far,
    oldest first. *)
Record world : Type := World {
  now : Q;
  alarm : option Q;
  handler : option Z;
  trace : list event
}.

Definition log (e : event) (w : world) : world :=
  World (now w) (alarm w) (handler w) (trace w ++ [e]).

(** The lines on standard output, oldest first. *)
Fixpoint printed (tr : list event) : list string :=
  match tr with
  | [] => []
  | Print s :: rest => s :: printed rest
  | _ :: rest => printed rest
  end.

(** The clock values read by [time.time()], oldest first. *)
Fixpoint clock_reads (tr : list event) : list Q :=
  match tr with
  | [] => []
  | ClockRead t :: rest => t :: clock_reads rest
  | _ :: rest => clock_reads rest
  end.

(** ** The monad of statements *)

(** A statement returns, raises, blocks for ever, or the process is killed
    by a signal that has no handler. *)
Inductive result (A : Type) : Type :=
| Ret (a : A)
| Raise (e : exn)
| Hang
| Killed.

Arguments Ret {A} a.
Arguments Raise {A} e.
Arguments Hang {A}.
Arguments Killed {A}.

Definition M (A : Type) : Type := world -> result A * world.

Definition ret {A} (a : A) : M A := fun w => (Ret a, w).

Definition raise {A} (e : exn) : M A := fun w => (Raise e, w).

Definition bind {A B} (m : M A) (k : A -> M B) : M B := fun w =>
  match m w with
  | (Ret a, w') => k a w'
  | (Raise e, w') => (Raise e, w')
  | (Hang, w') => (Hang, w')
  | (Killed, w') => (Killed, w')
  end.

Declare Scope py_scope.
Delimit Scope py_scope with py.
Notation "x <- m ;; k" := (bind m (fun x => k))
  (at level 61, m at next level, right associativity) : py_scope.
Notation "m ;; k" := (bind m (fun _ => k))
  (at level 61, right associativity) : py_scope.
Local Open Scope py_scope.

(** [try: body / except SystemExit: on_exit / except: on_error e] *)
Definition try_except {A} (body : M A) (on_exit : M A) (on_error : exn -> M A)
  : M A := fun w =>
  match body w with
  | (Raise e, w') => if is_SystemExit e then on_exit w' else on_error e w'
  | r => r
  end.

(** [if c: body] *)
Definition when (c : bool) (body : M unit) : M unit :=
  if c then body else ret tt.

(** [print(s)] *)
Definition print (s : string) : M unit := fun w => (Ret tt, log (Print s) w).

(** One [print] per line. *)
Fixpoint print_all (lines : list string) : M unit :=
  match lines with
  | [] => ret tt
  | line :: rest => print line ;; print_all rest
  end.

(** [sys.exit(n)] *)
Definition sys_exit {A} (n : Z) : M A := raise (SystemExit (Some n)).

(** [exit()] *)
Definition builtin_exit {A} : M A := raise (SystemExit None).

(** [time.time()] *)
Definition time_time : M Q := fun w => (Ret (now w), log (ClockRead (now w)) w).

(** ** Python floats *)

(** The integer nearest to [x], ties going to the even one. *)
Definition round_half_even (x : Q) : Z :=
  let f := Qfloor x in
  match Qcompare (x - inject_Z f) (1 # 2) with
  | Lt => f
  | Gt => f + 1
  | Eq => if Z.even f then f else f + 1
  end.

(** [round(x, 5)]: the closest multiple of 10^-5, ties to even (the
    conversion of that decimal back to a double is not modelled). *)
Definition round5 (x : Q) : Q := round_half_even (x * 100000) # 100000.

(** [x > n] for a float [x] and an int [n]. *)
Definition float_gt_int (x : Q) (n : Z) : bool := negb (Qle_bool x (inject_Z n)).

(** ** The reporter: [output] *)

Definition default_name : string := "scmd".

(** [output(label, state=0, lines=None, perfdata=None, name='scmd')].
    [perfdata] is a dict in insertion order: a list of pairs. *)
Definition output {V} `{PyStr V} (label : string) (state : Z)
    (lines : option (list string)) (perfdata : option (list (string * V)))
    (name : string) : M unit :=
  let lines := match lines with None => [] | Some l => l end in
  let perfdata := match perfdata with None => [] | Some p => p end in
  let pluginoutput := "" in
  pluginoutput <-
    (if state =? 0 then ret (pluginoutput ++ "OK")
     else if state =? 1 then ret (pluginoutput ++ "WARNING")
     else if state =? 2 then ret (pluginoutput ++ "CRITICAL")
     else if state =? 3 then ret (pluginoutput ++ "UNKNOWN")
     else raise (RuntimeError "ERROR: State programming error.")) ;;
  let pluginoutput := pluginoutput ++ " - " in
  let pluginoutput := pluginoutput ++ (name ++ ": " ++ str label) in
  let pluginoutput :=
    if negb (Nat.eqb (List.length lines) 0)
    then (pluginoutput ++ " - ") ++ PyString.join " " lines
    else pluginoutput in
  let pluginoutput :=
    match perfdata with
    | [] => pluginoutput
    | _ :: _ =>
        (pluginoutput ++ "|") ++
        PyString.join " "
          (map (fun kv => "'" ++ fst kv ++ "'" ++ "=" ++ str (snd kv)) perfdata)
    end in
  print pluginoutput ;;
  sys_exit state.

(** [handle_sigalrm(signum, frame, timeout=None)], for an [int] timeout. *)
Definition handle_sigalrm (timeout : Z) : M unit :=
  output (V := Z) ("Plugin timed out after " ++ PyString.of_int timeout ++ " seconds")
         3 None None default_name.

(** A world with the clock at zero where nothing has happened. *)
Definition w0 : world := World 0 None None [].

(** ** Signals and blocking calls *)

(** [signal.signal(signal.SIGALRM, partial(handle_sigalrm, timeout=n))] *)
Definition signal_signal (n : Z) : M unit := fun w =>
  (Ret tt, log (HandlerInstalled n) (World (now w) (alarm w) (Some n) (trace w))).

(** [signal.alarm(n)].  The argument is a C [int] (OverflowError outside
    its range) handed to [alarm(unsigned)]: zero cancels the alarm, a
    negative number wraps around. *)
Definition signal_alarm (n : Z) : M unit := fun w =>
  if (n <? - 2 ^ 31) || (2 ^ 31 <=? n) then (Raise OverflowError, w)
  else
    let secs := n mod 2 ^ 32 in
    let due := if secs =? 0 then None else Some (now w + inject_Z secs)%Q in
    (Ret tt, log (AlarmArmed n) (World (now w) due (handler w) (trace w))).

Definition advance (d : Q) (w : world) : world :=
  World (now w + d)%Q (alarm w) (handler w) (trace w).

(** Waiting with no alarm in the way. *)
Definition wait (d : duration) : M unit := fun w =>
  match d with
  | Seconds q => (Ret tt, advance q w)
  | Forever => (Hang, w)
  end.

(** The clock value at which the pending alarm interrupts a call of length
    [d] that starts now, if it does: the alarm is due strictly before the
    call is over. *)
Definition alarm_due (d : duration) (w : world) : option Q :=
  match alarm w with
  | None => None
  | Some t =>
      match d with
      | Forever => Some t
      | Seconds q => if Qle_bool (now w + q) t then None else Some t
      end
  end.

Definition remaining (d : duration) (spent : Q) : duration :=
  match d with
  | Seconds q => Seconds (q - spent)
  | Forever => Forever
  end.

(** A blocking call of length [d].  When the alarm is due first, SIGALRM is
    delivered at that moment: the handler runs inside the call (what it
    raises, the call raises); with no handler the signal kills the
    process. *)
Definition block (d : duration) : M unit := fun w =>
  match alarm_due d w with
  | None => wait d w
  | Some t =>
      let w' := log (AlarmFired t) (World t None (handler w) (trace w)) in
      match handler w with
      | None => (Killed, w')
      | Some n => (handle_sigalrm n ;; wait (remaining d (t - now w))) w'
      end
  end.

(** A call into a library or the network, as the run meets it: how long it
    takes, and what it returns or raises. *)
Record call (A : Type) : Type := Call {
  takes : duration;
  gives : A + exn
}.

Arguments Call {A} takes gives.
Arguments takes {A} c.
Arguments gives {A} c.

Definition extern {A} (c : call A) : M A :=
  block (takes c) ;;
  match gives c with
  | inl a => ret a
  | inr e => raise e
  end.

(** ** The command line and the libraries *)

(** [argparse.Namespace] of [args_parse]; [func] is always
    [getcertificate]. *)
Record Args : Type := {
  verbose : bool;
  user : string;
  a : string;
  prod : bool;
  warning : Z;
  critical : Z;
  timeout : Z
}.

(** Everything outside [check_scmd.py] that a run depends on. *)
Record Runtime : Type := {
  Client : Type;                       (* zeep.Client *)
  PemObject : Type;                    (* pem.AbstractPEMObject *)
  X509 : Type;                         (* OpenSSL.crypto.X509 *)
  boot_time : Q;                       (* the clock when main() starts *)
  parse_args : call Args;              (* parser.parse_args() on sys.argv *)
  parse_says : list string;
      (* the lines argparse writes on standard output when parse_args leaves
         by SystemExit: the help of -h, the version of -V; none for a
         command line it refuses (the usage goes to standard error) *)
  zeep_Client : string -> Z -> call Client;
      (* Client(wsdl, transport=Transport(timeout=timeout)) *)
  GetCertificate : Client -> string -> string -> call (option string);
      (* client.service.GetCertificate(applicationId=.., userId=..) *)
  pem_parse : string -> call (list PemObject);             (* pem.parse *)
  load_certificate : PemObject -> call X509;
      (* crypto.load_certificate(crypto.FILETYPE_PEM, obj.as_bytes()) *)
  subject_CN : X509 -> option string;  (* cert.get_subject().CN *)
  float_str : PyStr Q;                 (* str(x) of a float *)
  exc_info_str : exn -> string         (* str(sys.exc_info()) in a handler *)
}.

(** [time_seconds > critical -> 2, elif time_seconds > warning -> 1, else
    the initial 0]: lines 253 and 255-258 of [check]. *)
Definition threshold_status (time_seconds : Q) (warning critical : Z) : Z :=
  let status := 0 in
  if float_gt_int time_seconds critical then 2
  else if float_gt_int time_seconds warning then 1
  else status.

(** [xs[i]] for a constant index [i >= 0]. *)
Definition index {A} (xs : list A) (i : nat) : M A :=
  match nth_error xs i with
  | Some x => ret x
  | None => raise IndexError
  end.

(** [s + x] where [s] is a [str] and [x] is a [str] or [None]. *)
Definition str_add (s : string) (x : option string) : M string :=
  match x with
  | Some t => ret (s ++ t)
  | None => raise TypeError
  end.

(** [result.encode()] *)
Definition encode (result : option string) : M string :=
  match result with
  | Some s => ret s
  | None => raise AttributeError
  end.

Definition is_None {A} (x : option A) : bool :=
  match x with None => true | Some _ => false end.

(** [get_wsdl(env)], for the [bool] that [-prod] sets. *)
Definition get_wsdl (env : bool) : string :=
  if env
  then "https://cmd.autenticacao.gov.pt/Ama.Authentication.Frontend/CCMovelDigitalSignature.svc?wsdl"
  else "https://preprod.cmd.autenticacao.gov.pt/Ama.Authentication.Frontend/CCMovelDigitalSignature.svc?wsdl".

(** ** The program *)

Section Program.

Variable R : Runtime.

#[local] Instance PyStr_float : PyStr Q := float_str R.

(** [getclient(env, timeout)] *)
Definition getclient (env : bool) (timeout : Z) : M (Client R) :=
  extern (zeep_Client R (get_wsdl env) timeout).

(** [getcertificate(client, args)] *)
Definition getcertificate (client : Client R) (args : Args) : M (option string) :=
  extern (GetCertificate R client (a args) (user args)).

(** [debug()]: configures logging, nothing is printed on standard output. *)
Definition debug : M unit := ret tt.

(** [args_parse()]: the parser returns the arguments or raises; when it
    leaves by [SystemExit] it has first written its help or version text
    on standard output. *)
Definition args_parse : M Args :=
  block (takes (parse_args R)) ;;
  match gives (parse_args R) with
  | inl args => ret args
  | inr e =>
      when (is_SystemExit e) (print_all (parse_says R)) ;;
      raise e
  end.

(** [check(result, init_time, warning, critical)] *)
Definition check (result : option string) (init_time : Q)
    (warning critical : Z) : M unit :=
  when (is_None result)
    (output (V := Z) "Impossível obter certificado" 2 None None default_name ;;
     builtin_exit) ;;
  encoded <- encode result ;;
  certs <- extern (pem_parse R encoded) ;;
  cert_user <- (c <- index certs 0 ;; extern (load_certificate R c)) ;;
  cert_ca <- (c <- index certs 2 ;; extern (load_certificate R c)) ;;
  cert_root <- (c <- index certs 1 ;; extern (load_certificate R c)) ;;
  t <- time_time ;;
  let time_seconds := round5 (t - init_time) in
  let status := threshold_status time_seconds warning critical in
  label <- str_add ("Certificado emitido para " ++ PyString.dquote)
                   (subject_CN R cert_user) ;;
  let label := label ++ (PyString.dquote ++ " pela Entidade de Certificação "
                         ++ PyString.dquote) in
  label <- str_add label (subject_CN R cert_ca) ;;
  let label := label ++ (PyString.dquote ++ " na hierarquia do "
                         ++ PyString.dquote) in
  label <- str_add label (subject_CN R cert_root) ;;
  let label := label ++ PyString.dquote in
  output label status (Some []) (Some [("time_seconds", time_seconds)])
         default_name.

(** [main()] *)
Definition main : M unit :=
  init <- time_time ;;
  args <- args_parse ;;
  signal_signal (timeout args + 5) ;;
  signal_alarm (timeout args + 5) ;;
  when (verbose args) debug ;;
  client <- getclient (prod args) (timeout args) ;;
  result <- getcertificate client args ;;
  check result init (warning args) (critical args).

(** The [if __name__ == "__main__":] block. *)
Definition script : M unit :=
  try_except main
    (ret tt)
    (fun e => output (V := Z) ("Error: " ++ exc_info_str R e) 2 None None
                     default_name).

(** The world when the script starts. *)
Definition boot : world := World (boot_time R) None None [].

End Program.

(** How the process ends. *)
Inductive termination : Type :=
| Exited (code : Z)           (* exit status *)
| Traceback (e : exn)         (* unhandled exception: trace on stderr *)
| KilledBySignal
| NeverTerminates.

(** What the interpreter does with the outcome of the script: a normal end
    is status 0, [SystemExit(n)] is status [n] (its low 8 bits),
    [SystemExit(None)] is status 0. *)
Definition interpreter_exit (r : result unit) : termination :=
  match r with
  | Ret _ => Exited 0
  | Raise (SystemExit None) => Exited 0
  | Raise (SystemExit (Some n)) => Exited (n mod 256)
  | Raise e => Traceback e
  | Hang => NeverTerminates
  | Killed => KilledBySignal
  end.

(** One run of the probe: the exit and standard output. *)
Definition run (R : Runtime) : termination * list string :=
  let '(r, w) := script R (boot R) in
  (interpreter_exit r, printed (trace w)).

(** ** A concrete runtime, for running the program on examples *)

Module Demo.

(** The digits of [n] on exactly [k] places (the low [k] digits). *)
Fixpoint digits (k : nat) (n : Z) : string :=
  match k with
  | O => ""
  | S k' => digits k' (n / 10) ++ PyString.of_int (n mod 10)
  end.

(** Drops the zeros at the end, keeping one character at least. *)
Fixpoint strip_zeros (s : string) : string :=
  match s with
  | String c rest =>
      match strip_zeros rest with
      | "" => if Ascii.eqb c "0" then "" else String c ""
      | rest' => String c rest'
      end
  | "" => ""
  end.

(** [str(x)] for a float that is a multiple of 10^-5 and is zero or of
    magnitude between 10^-4 and 10^16, where Python prints plain decimals:
    [2.0], [4.12345], [-0.5]. *)
Definition repr_float5 (x : Q) : string :=
  let n := round_half_even (x * 100000) in
  let m := Z.abs n in
  let frac := strip_zeros (digits 5 (m mod 100000)) in
  (if n <? 0 then "-" else "") ++ PyString.of_int (m / 100000) ++ "." ++
  (if String.eqb frac "" then "0" else frac).

(** [str(sys.exc_info())], the traceback object shown at a fixed address. *)
Definition exc_info (e : exn) : string :=
  let shown cls args :=
    "(<class '" ++ cls ++ "'>, " ++ cls ++ "(" ++ args ++ "), " ++
    "<traceback object at 0x7f3a5c0b1e80>)" in
  match e with
  | SystemExit None => shown "SystemExit" ""
  | SystemExit (Some n) => shown "SystemExit" (PyString.of_int n)
  | RuntimeError msg => shown "RuntimeError" ("'" ++ msg ++ "'")
  | IndexError => shown "IndexError" "'list index out of range'"
  | TypeError =>
      shown "TypeError"
        ("'can only concatenate str (not " ++ PyString.dquote ++ "NoneType" ++
         PyString.dquote ++ ") to str'")
  | AttributeError =>
      shown "AttributeError"
        (PyString.dquote ++ "'NoneType' object has no attribute 'encode'" ++
         PyString.dquote)
  | OverflowError => shown "OverflowError" "'signed integer is greater than maximum'"
  | External cls msg => shown cls ("'" ++ msg ++ "'")
  end.

(** A PEM object is shown by what loading it gives: a certificate with its
    subject common name (if it has one), or an error. *)
Inductive pem : Type :=
| Certificate (cn : option string)
| Garbage.

(** A response text is shown by the PEM objects that [pem.parse] finds in
    it: [bundle] writes them one per line, [objects] reads them back. *)
Definition line_of (p : pem) : string :=
  match p with
  | Certificate (Some cn) => "C" ++ cn
  | Certificate None => "N"
  | Garbage => "G"
  end.

Definition nl : string := String (ascii_of_nat 10) EmptyString.

Fixpoint bundle (ps : list pem) : string :=
  match ps with
  | [] => ""
  | p :: rest => line_of p ++ nl ++ bundle rest
  end.

Definition pem_of (line : string) : pem :=
  match line with
  | String "C" cn => Certificate (Some cn)
  | String "N" _ => Certificate None
  | _ => Garbage
  end.

Fixpoint objects_from (cur : string) (s : string) : list pem :=
  match s with
  | "" => []
  | String c rest =>
      if Ascii.eqb c (ascii_of_nat 10)
      then pem_of cur :: objects_from "" rest
      else objects_from (cur ++ String c "") rest
  end.

Definition objects (s : string) : list pem := objects_from "" s.

Definition load (p : pem) : call (option string) :=
  match p with
  | Certificate cn => Call (Seconds 0) (inl cn)
  | Garbage => Call (Seconds 0) (inr (External "OpenSSL.crypto.Error" "[]"))
  end.

(** A run is laid out by the command line, how long the start (argument
    parsing), the client construction, the remote call and the parsing
    take, and what the remote call gives. *)
Record scenario : Type := {
  sc_args : Args;
  sc_start : duration;
  sc_client : call unit;
  sc_fetch : call (option string);
  sc_parse : duration
}.

Definition runtime (sc : scenario) : Runtime := {|
  Client := unit;
  PemObject := pem;
  X509 := option string;
  boot_time := 1000;
  parse_args := Call (sc_start sc) (inl (sc_args sc));
  parse_says := [];
  zeep_Client := fun _ _ => sc_client sc;
  GetCertificate := fun _ _ _ => sc_fetch sc;
  pem_parse := fun s => Call (sc_parse sc) (inl (objects s));
  load_certificate := load;
  subject_CN := fun c => c;
  float_str := repr_float5;
  exc_info_str := exc_info
|}.

(** [-u "+351 900000000" -a app] with the default thresholds and timeout. *)
Definition default_args : Args := {|
  verbose := false; user := "+351 900000000"; a := "app"; prod := false;
  warning := 3; critical := 6; timeout := 20
|}.

Definition jane : string :=
  bundle [Certificate (Some "Jane Doe"); Certificate (Some "ROOT CA");
          Certificate (Some "ISSUING CA")].

(** Runs used in the examples and statements below. *)

Definition ok_client : call unit := Call (Seconds 0) (inl tt).

(** The remote call answers the Jane Doe bundle after [d] seconds. *)
Definition answers_after (d : Q) : scenario := {|
  sc_args := default_args; sc_start := Seconds 0; sc_client := ok_client;
  sc_fetch := Call (Seconds d) (inl (Some jane)); sc_parse := Seconds 0
|}.

(** Building the client takes 1 second, the remote call 3 seconds. *)
Definition slow_client : scenario := {|
  sc_args := default_args; sc_start := Seconds 0;
  sc_client := Call (Seconds 1) (inl tt);
  sc_fetch := Call (Seconds 3) (inl (Some jane)); sc_parse := Seconds 0
|}.

Definition john : string :=
  bundle [Certificate (Some "John Roe"); Certificate (Some "OTHER ROOT");
          Certificate (Some "OTHER CA")].

(** The remote call answers the John Roe bundle after [d] seconds. *)
Definition other_answer (d : Q) : scenario := {|
  sc_args := default_args; sc_start := Seconds 0; sc_client := ok_client;
  sc_fetch := Call (Seconds d) (inl (Some john)); sc_parse := Seconds 0
|}.

(** The remote call raises "connection refused" after 1 second. *)
Definition refused : scenario := {|
  sc_args := default_args; sc_start := Seconds 0; sc_client := ok_client;
  sc_fetch := Call (Seconds 1) (inr (External "Exception" "connection refused"));
  sc_parse := Seconds 0
|}.

(** The remote call answers nothing after 1 second. *)
Definition empty_answer : scenario := {|
  sc_args := default_args; sc_start := Seconds 0; sc_client := ok_client;
  sc_fetch := Call (Seconds 1) (inl None); sc_parse := Seconds 0
|}.

(** [-t 10], and the remote call never returns. *)
Definition never_answers : scenario := {|
  sc_args := {| verbose := false; user := "+351 900000000"; a := "app";
                prod := false; warning := 3; critical := 6; timeout := 10 |};
  sc_start := Seconds 0; sc_client := ok_client;
  sc_fetch := Call Forever (inl None); sc_parse := Seconds 0
|}.

(** The remote call answers, after 1 second, a bundle of three certificates
    the first of which has no common name in its subject. *)
Definition nameless_user : scenario := {|
  sc_args := default_args; sc_start := Seconds 0; sc_client := ok_client;
  sc_fetch := Call (Seconds 1)
    (inl (Some (bundle [Certificate None; Certificate (Some "ROOT CA");
                        Certificate (Some "ISSUING CA")])));
  sc_parse := Seconds 0
|}.

(** The remote call answers, after 1 second, three PEM objects the third of
    which does not load as a certificate. *)
Definition garbled_ca : scenario := {|
  sc_args := default_args; sc_start := Seconds 0; sc_client := ok_client;
  sc_fetch := Call (Seconds 1)
    (inl (Some (bundle [Certificate (Some "Jane Doe");
                        Certificate (Some "ROOT CA"); Garbage])));
  sc_parse := Seconds 0
|}.

End Demo.

(** ** The status line, as the specification words it *)

(** LEVELNAME: 0 is OK, 1 is WARNING, 2 is CRITICAL, 3 is UNKNOWN. *)
Definition levelname (state : Z) : option string :=
  match state with
  | 0 => Some "OK"
  | 1 => Some "WARNING"
  | 2 => Some "CRITICAL"
  | 3 => Some "UNKNOWN"
  | _ => None
  end.

(** [' - '] and the extra lines joined by spaces, when there are any. *)
Definition extra_block (lines : list string) : string :=
  match lines with
  | [] => ""
  | _ :: _ => " - " ++ PyString.join " " lines
  end.

(** ['<key>'=<value>] *)
Definition perf_pair {V} `{PyStr V} (kv : string * V) : string :=
  "'" ++ fst kv ++ "'=" ++ str (snd kv).

(** ['|'] and the pairs joined by spaces, when there are any. *)
Definition perf_block {V} `{PyStr V} (perfdata : list (string * V)) : string :=
  match perfdata with
  | [] => ""
  | _ :: _ => "|" ++ PyString.join " " (map perf_pair perfdata)
  end.

(** [<LEVELNAME> - <name>: <label>], then the two optional blocks. *)
Definition status_line {V} `{PyStr V} (level name label : string)
    (lines : list string) (perfdata : list (string * V)) : string :=
  level ++ " - " ++ name ++ ": " ++ label ++
  extra_block lines ++ perf_block perfdata.

(** The label of a completed check. *)
Definition issued_label (user_cn ca_cn root_cn : string) : string :=
  "Certificado emitido para " ++ PyString.dquote ++ user_cn ++ PyString.dquote ++
  " pela Entidade de Certificação " ++ PyString.dquote ++ ca_cn ++ PyString.dquote ++
  " na hierarquia do " ++ PyString.dquote ++ root_cn ++ PyString.dquote.

(** ** Stages of a run *)

Section Stages.

Variable R : Runtime.

(** The statements of [main] before the remote call: they give the start
    time, the arguments and the client. *)
Definition prelude : M (Q * Args * Client R) :=
  init <- time_time ;;
  args <- args_parse R ;;
  signal_signal (timeout args + 5) ;;
  signal_alarm (timeout args + 5) ;;
  when (verbose args) (debug) ;;
  client <- getclient R (prod args) (timeout args) ;;
  ret (init, args, client).

(** The response text [s] is parsed and its objects 0, 2 and 1 are loaded,
    in the order of [check], from world [w] to world [w']: nothing raises
    and no alarm goes off on the way. *)
Definition parses (s : string) (w : world)
    (certs : list (PemObject R)) (cert_user cert_ca cert_root : X509 R)
    (w' : world) : Prop :=
  exists w1 w2 w3 p0 p1 p2,
    extern (pem_parse R s) w = (Ret certs, w1) /\
    nth_error certs 0 = Some p0 /\
    nth_error certs 1 = Some p1 /\
    nth_error certs 2 = Some p2 /\
    extern (load_certificate R p0) w1 = (Ret cert_user, w2) /\
    extern (load_certificate R p2) w2 = (Ret cert_ca, w3) /\
    extern (load_certificate R p1) w3 = (Ret cert_root, w').

(** The line of a completed check. *)
Definition completed_line (level user_cn ca_cn root_cn : string)
    (time_seconds : Q) : string :=
  level ++ " - scmd: " ++ issued_label user_cn ca_cn root_cn ++
  "|'time_seconds'=" ++ float_str R time_seconds.

End Stages.

(** [lines=None] and [perfdata=None] stand for the empty list and dict. *)
Definition or_empty {A} (x : option (list A)) : list A :=
  match x with
  | None => []
  | Some l => l
  end.

(** ** Invariants of statements *)

(** A statement prints nothing, or it prints one line and leaves by
    [SystemExit]. *)
Definition reports_once {A} (m : M A) : Prop :=
  forall w r w', m w = (r, w') ->
    printed (trace w') = printed (trace w) \/
    exists line c,
      printed (trace w') = (printed (trace w) ++ [line])%list /\
      r = Raise (SystemExit c).

(** A statement prints nothing, unless it leaves by [SystemExit]. *)
Definition quiet_unless_exit {A} (m : M A) : Prop :=
  forall w r w', m w = (r, w') ->
    printed (trace w') = printed (trace w) \/ exists c, r = Raise (SystemExit c).

(** A statement does not read the clock. *)
Definition reads_no_clock {A} (m : M A) : Prop :=
  forall w r w', m w = (r, w') -> clock_reads (trace w') = clock_reads (trace w).

(** ** Pre- and postconditions of statements *)

(** From a world where [P] holds, the statement [m] returns in a world
    where [Qret] holds, raises in a world where [Qraise] holds, and may
    block for ever or be killed only if [Qhang] or [Qkilled] holds. *)
Definition triple {A} (P : world -> Prop) (m : M A)
    (Qret : A -> world -> Prop) (Qraise : exn -> world -> Prop)
    (Qhang Qkilled : Prop) : Prop :=
  forall w r w', P w -> m w = (r, w') ->
    match r with
    | Ret a => Qret a w'
    | Raise e => Qraise e w'
    | Hang => Qhang
    | Killed => Qkilled
    end.

(** A property of worlds that what happens (the trace) does not change. *)
Definition steady (P : world -> Prop) : Prop :=
  forall e w, P w -> P (log e w).

(** No alarm is pending. *)
Definition unarmed (w : world) : Prop := alarm w = None.

(** A handler of SIGALRM is installed. *)
Definition handled (w : world) : Prop := handler w <> None.

(** The clock has not passed [t]. *)
Definition within (t : Q) (w : world) : Prop := (now w <= t)%Q.

(** The alarm is pending for the clock value [t], which has not passed, and
    its handler is installed. *)
Definition on_time (t : Q) (w : world) : Prop :=
  alarm w = Some t /\ (now w <= t)%Q /\ handler w <> None.

(** ** The WSDL table, for any key *)

(** What [wsdl.get(env, lambda: 'No valid WSDL')] gives: the URL stored
    under the key, or the default, which is the function itself (it is not
    called). *)
Inductive wsdl_value : Type :=
| Url (s : string)
| DefaultLambda.

(** [get_wsdl(env)] for an [int] key; the [bool] of [-prod] is the key 0
    or 1 ([False == 0], [True == 1]). *)
Definition get_wsdl_key (env : Z) : wsdl_value :=
  if env =? 0 then
    Url "https://preprod.cmd.autenticacao.gov.pt/Ama.Authentication.Frontend/CCMovelDigitalSignature.svc?wsdl"
  else if env =? 1 then
    Url "https://cmd.autenticacao.gov.pt/Ama.Authentication.Frontend/CCMovelDigitalSignature.svc?wsdl"
  else DefaultLambda.

(** The remote call answers, after 1 second, a bundle of two certificates
    only. *)
Definition two_blocks : Demo.scenario := {|
  Demo.sc_args := Demo.default_args; Demo.sc_start := Seconds 0;
  Demo.sc_client := Demo.ok_client;
  Demo.sc_fetch := Call (Seconds 1)
    (inl (Some (Demo.bundle [Demo.Certificate (Some "Jane Doe");
                             Demo.Certificate (Some "ROOT CA")])));
  Demo.sc_parse := Seconds 0
|}.

(** A run whose command line argparse refuses: [parse_args] prints the
    usage on standard error and leaves by [SystemExit(2)]. *)
Definition usage_error : Runtime := {|
  Client := unit;
  PemObject := Demo.pem;
  X509 := option string;
  boot_time := 1000;
  parse_args := Call (Seconds 0) (inr (SystemExit (Some 2)));
  parse_says := [];
  zeep_Client := fun _ _ => Demo.ok_client;
  GetCertificate := fun _ _ _ => Call (Seconds 1) (inl None);
  pem_parse := fun s => Call (Seconds 0) (inl (Demo.objects s));
  load_certificate := Demo.load;
  subject_CN := fun c => c;
  float_str := Demo.repr_float5;
  exc_info_str := Demo.exc_info
|}.

(** A run with [-V]: argparse prints the version on standard output and
    leaves by [SystemExit(0)]. *)
Definition version_asked : Runtime := {|
  Client := unit;
  PemObject := Demo.pem;
  X509 := option string;
  boot_time := 1000;
  parse_args := Call (Seconds 0) (inr (SystemExit (Some 0)));
  parse_says := ["check_scmd.py v1.0"];
  zeep_Client := fun _ _ => Demo.ok_client;
  GetCertificate := fun _ _ _ => Call (Seconds 1) (inl None);
  pem_parse := fun s => Call (Seconds 0) (inl (Demo.objects s));
  load_certificate := Demo.load;
  subject_CN := fun c => c;
  float_str := Demo.repr_float5;
  exc_info_str := Demo.exc_info
|}.

(** [-t -5], and the remote call never returns. *)
Definition no_deadline : Demo.scenario := {|
  Demo.sc_args := {| verbose := false; user := "+351 900000000"; a := "app";
                     prod := false; warning := 3; critical := 6;
                     timeout := -5 |};
  Demo.sc_start := Seconds 0; Demo.sc_client := Demo.ok_client;
  Demo.sc_fetch := Call Forever (inl None); Demo.sc_parse := Seconds 0
|}.

(** * Properties *)

(** ** Strings *)

Lemma append_assoc (s t u : string) : (s ++ t) ++ u = s ++ (t ++ u).
Proof.
  induction s as [|c s IH]; simpl; [reflexivity | now rewrite IH].
Qed.

Lemma append_nil_r (s : string) : s ++ "" = s.
Proof.
  induction s as [|c s IH]; simpl; [reflexivity | now rewrite IH].
Qed.

Lemma extra_block_empty (lines : list string) :
  extra_block lines = "" <-> lines = [].
Proof.
  destruct lines; simpl; split; intros E; try reflexivity; discriminate.
Qed.

Lemma perf_block_empty {V} `{PyStr V} (perfdata : list (string * V)) :
  perf_block perfdata = "" <-> perfdata = [].
Proof.
  destruct perfdata; simpl; split; intros E; try reflexivity; discriminate.
Qed.

(** ** Traces *)

Lemma printed_app (tr1 tr2 : list event) :
  printed (tr1 ++ tr2) = (printed tr1 ++ printed tr2)%list.
Proof.
  induction tr1 as [|e tr1 IH]; simpl; [reflexivity|].
  destruct e; simpl; now rewrite IH.
Qed.

Lemma clock_reads_app (tr1 tr2 : list event) :
  clock_reads (tr1 ++ tr2) = (clock_reads tr1 ++ clock_reads tr2)%list.
Proof.
  induction tr1 as [|e tr1 IH]; simpl; [reflexivity|].
  destruct e; simpl; now rewrite IH.
Qed.

(** ** The reporter *)

Lemma levelname_valid (state : Z) :
  0 <= state <= 3 <-> exists level, levelname state = Some level.
Proof.
  split.
  - intros Hs.
    assert (E : state = 0 \/ state = 1 \/ state = 2 \/ state = 3) by lia.
    destruct E as [-> | [-> | [-> | ->]]]; simpl; eauto.
  - intros [level E]. unfold levelname in E.
    destruct state as [|p|p]; try discriminate; [lia|].
    destruct p as [[|[]|]|[|[]|]|]; try discriminate; lia.
Qed.

(** On a valid level [output] prints the line of the specification and
    raises [SystemExit(state)]. *)
Lemma output_valid {V} `{PyStr V} (label : string) (state : Z)
    (lines : option (list string)) (perfdata : option (list (string * V)))
    (name level : string) (w : world) :
  levelname state = Some level ->
  output label state lines perfdata name w
  = (Raise (SystemExit (Some state)),
     log (Print (status_line level name label (or_empty lines) (or_empty perfdata))) w).
Proof.
  intros E.
  assert (Hs : 0 <= state <= 3) by (apply levelname_valid; eauto).
  assert (C : state = 0 \/ state = 1 \/ state = 2 \/ state = 3) by lia.
  unfold output, bind, print, sys_exit, raise, ret, status_line, str, PyStr_string.
  destruct lines as [[|l ls]|], perfdata as [[|kv p]|];
    destruct C as [-> | [-> | [-> | ->]]];
    simpl in E; injection E as <-; cbn [Z.eqb Pos.eqb or_empty extra_block perf_block
      length Nat.eqb negb];
    unfold perf_pair; cbn [String.append];
    repeat rewrite append_assoc; cbn [String.append];
    repeat rewrite append_nil_r; reflexivity.
Qed.

(** On any other level [output] raises before it prints. *)
Lemma output_invalid {V} `{PyStr V} (label : string) (state : Z)
    (lines : option (list string)) (perfdata : option (list (string * V)))
    (name : string) (w : world) :
  ~ 0 <= state <= 3 ->
  output label state lines perfdata name w
  = (Raise (RuntimeError "ERROR: State programming error."), w).
Proof.
  intros Hs. unfold output, bind, raise.
  destruct (Z.eqb_spec state 0); [lia|].
  destruct (Z.eqb_spec state 1); [lia|].
  destruct (Z.eqb_spec state 2); [lia|].
  destruct (Z.eqb_spec state 3); [lia|].
  reflexivity.
Qed.

(** ** Statements print at most once, and only to leave *)

Create HintDb once.
Create HintDb noclock.

Lemma once_ret {A} (a : A) : reports_once (ret a).
Proof. intros w r w' E. injection E as <- <-. now left. Qed.

Lemma once_raise {A} (e : exn) : reports_once (@raise A e).
Proof. intros w r w' E. injection E as <- <-. now left. Qed.

Lemma once_bind {A B} (m : M A) (k : A -> M B) :
  reports_once m -> (forall a, reports_once (k a)) -> reports_once (bind m k).
Proof.
  intros Hm Hk w r w' E. unfold bind in E.
  destruct (m w) as [r1 w1] eqn:E1.
  destruct r1 as [a | e | | ].
  - destruct (Hm _ _ _ E1) as [P | (line & c & _ & D)]; [|discriminate].
    destruct (Hk a _ _ _ E) as [P' | (line & c & P' & D)].
    + left. congruence.
    + right. exists line, c. split; congruence.
  - injection E as <- <-.
    destruct (Hm _ _ _ E1) as [P | (line & c & P & D)]; [now left|].
    right. exists line, c. split; [exact P|]. now injection D as ->.
  - injection E as <- <-.
    destruct (Hm _ _ _ E1) as [P | (line & c & _ & D)]; [now left|discriminate].
  - injection E as <- <-.
    destruct (Hm _ _ _ E1) as [P | (line & c & _ & D)]; [now left|discriminate].
Qed.

Lemma once_output {V} `{PyStr V} label state lines
    (perfdata : option (list (string * V))) name :
  reports_once (output label state lines perfdata name).
Proof.
  intros w r w' E.
  destruct (Z_le_dec 0 state) as [L|L]; [destruct (Z_le_dec state 3) as [U|U]|].
  - destruct (proj1 (levelname_valid state) (conj L U)) as [level El].
    rewrite (output_valid _ _ _ _ _ _ _ El) in E. injection E as <- <-.
    right. eexists _, _. split; [|reflexivity].
    unfold log; simpl. now rewrite printed_app.
  - rewrite output_invalid in E by lia. injection E as <- <-. now left.
  - rewrite output_invalid in E by lia. injection E as <- <-. now left.
Qed.

Lemma once_time_time : reports_once time_time.
Proof.
  intros w r w' E. injection E as <- <-. left.
  unfold log; simpl. rewrite printed_app. simpl. now rewrite app_nil_r.
Qed.

Lemma once_signal_signal n : reports_once (signal_signal n).
Proof.
  intros w r w' E. injection E as <- <-. left.
  unfold log; simpl. rewrite printed_app. simpl. now rewrite app_nil_r.
Qed.

Lemma once_signal_alarm n : reports_once (signal_alarm n).
Proof.
  intros w r w' E. unfold signal_alarm in E.
  destruct ((n <? - 2 ^ 31) || (2 ^ 31 <=? n)); injection E as <- <-; left;
    [reflexivity|].
  unfold log; simpl. rewrite printed_app. simpl. now rewrite app_nil_r.
Qed.

Lemma once_wait d : reports_once (wait d).
Proof.
  intros w r w' E. destruct d; injection E as <- <-; now left.
Qed.

Lemma once_handle_sigalrm n : reports_once (handle_sigalrm n).
Proof. apply once_output. Qed.

Lemma once_block d : reports_once (block d).
Proof.
  intros w r w' E. unfold block in E.
  destruct (alarm_due d w) as [t|].
  - destruct (handler w) as [n|].
    + assert (Hb : reports_once (handle_sigalrm n ;; wait (remaining d (t - now w)))).
      { apply once_bind; [apply once_handle_sigalrm | intros; apply once_wait]. }
      destruct (Hb _ _ _ E) as [P | (line & c & P & D)].
      * left. rewrite P. unfold log; simpl. rewrite printed_app. simpl.
        now rewrite app_nil_r.
      * right. exists line, c. split; [|exact D]. rewrite P.
        unfold log; simpl. rewrite printed_app. simpl. now rewrite app_nil_r.
    + injection E as <- <-. left. unfold log; simpl. rewrite printed_app.
      simpl. now rewrite app_nil_r.
  - exact (once_wait d _ _ _ E).
Qed.

Lemma once_extern {A} (c : call A) : reports_once (extern c).
Proof.
  apply once_bind; [apply once_block|].
  intros _. destruct (gives c); [apply once_ret | apply once_raise].
Qed.

Lemma once_index {A} (xs : list A) i : reports_once (index xs i).
Proof.
  unfold index. destruct (nth_error xs i); [apply once_ret | apply once_raise].
Qed.

Lemma once_str_add s x : reports_once (str_add s x).
Proof. destruct x; [apply once_ret | apply once_raise]. Qed.

Lemma once_encode x : reports_once (encode x).
Proof. destruct x; [apply once_ret | apply once_raise]. Qed.

Lemma once_when c body : reports_once body -> reports_once (when c body).
Proof. intros Hb. destruct c; [exact Hb | apply once_ret]. Qed.

#[export] Hint Resolve once_ret once_raise once_output once_time_time
  once_signal_signal once_signal_alarm once_wait once_block once_extern
  once_index once_str_add once_encode once_when : once.

(** Splits a sequence of statements into its statements. *)
Ltac once_steps :=
  repeat first [ progress cbv zeta
               | solve [auto with once]
               | apply once_when
               | apply once_bind; [ | intros ? ] ].

Lemma once_check R result init_time warning critical :
  reports_once (check R result init_time warning critical).
Proof. unfold check, builtin_exit. once_steps. Qed.

#[export] Hint Resolve once_check : once.

(** What [main] does once the arguments are parsed. *)
Lemma once_main_rest R init args :
  reports_once
    (signal_signal (timeout args + 5) ;;
     signal_alarm (timeout args + 5) ;;
     when (verbose args) debug ;;
     client <- getclient R (prod args) (timeout args) ;;
     result <- getcertificate R client args ;;
     check R result init (warning args) (critical args)).
Proof. unfold getclient, getcertificate, debug. once_steps. Qed.

Lemma once_prelude_rest R (init : Q) args :
  reports_once
    (signal_signal (timeout args + 5) ;;
     signal_alarm (timeout args + 5) ;;
     when (verbose args) debug ;;
     client <- getclient R (prod args) (timeout args) ;;
     ret (init, args, client)).
Proof. unfold getclient, debug. once_steps. Qed.

(** ** What the argument parser prints *)

Lemma print_all_spec (lines : list string) (w : world) :
  print_all lines w
  = (Ret tt, World (now w) (alarm w) (handler w) (trace w ++ map Print lines)).
Proof.
  revert w. induction lines as [|line rest IH]; intros w; simpl.
  - rewrite app_nil_r. now destruct w.
  - unfold bind, print. rewrite IH. unfold log; simpl.
    now rewrite <- app_assoc.
Qed.

Lemma printed_map_Print (lines : list string) : printed (map Print lines) = lines.
Proof. induction lines as [|l ls IH]; simpl; [reflexivity | now rewrite IH]. Qed.

Lemma clock_reads_map_Print (lines : list string) :
  clock_reads (map Print lines) = [].
Proof. induction lines as [|l ls IH]; simpl; [reflexivity | exact IH]. Qed.

(** The argument parsing with no alarm pending: it blocks for ever,
    returns the arguments, raises an error, or leaves by [SystemExit]
    after printing its text. *)
Lemma args_parse_unarmed (R : Runtime) (w : world) :
  alarm w = None ->
  match takes (parse_args R), gives (parse_args R) with
  | Forever, _ => args_parse R w = (Hang, w)
  | Seconds d, inl args => args_parse R w = (Ret args, advance d w)
  | Seconds d, inr e =>
      args_parse R w
      = (Raise e,
         if is_SystemExit e
         then World (now w + d)%Q (alarm w) (handler w)
                    (trace w ++ map Print (parse_says R))
         else advance d w)
  end.
Proof.
  intros Ha. unfold args_parse, bind, block, alarm_due. rewrite Ha.
  destruct (takes (parse_args R)) as [d|]; simpl; [|reflexivity].
  destruct (gives (parse_args R)) as [args | e]; [reflexivity|].
  destruct (is_SystemExit e); unfold when, bind; [|reflexivity].
  rewrite print_all_spec. unfold raise, advance; simpl. now rewrite Ha.
Qed.

(** When the argument parsing returns, the parser has given the
    arguments. *)
Lemma args_parse_gives (R : Runtime) (w w' : world) (args : Args) :
  args_parse R w = (Ret args, w') -> gives (parse_args R) = inl args.
Proof.
  unfold args_parse, bind.
  destruct (block (takes (parse_args R)) w) as [[[] | | | ] w1]; try discriminate.
  destruct (gives (parse_args R)) as [args' | e]; simpl.
  - intros E. now injection E as ->.
  - destruct (when (is_SystemExit e) (print_all (parse_says R)) w1)
      as [[[] | | | ] w2]; discriminate.
Qed.

(** ** Statements that print only to leave *)

Lemma quiet_of_once {A} (m : M A) : reports_once m -> quiet_unless_exit m.
Proof.
  intros Hm w r w' E. destruct (Hm _ _ _ E) as [P | (line & c & _ & D)];
    [now left | right; eauto].
Qed.

Lemma quiet_bind {A B} (m : M A) (k : A -> M B) :
  quiet_unless_exit m -> (forall a, quiet_unless_exit (k a)) ->
  quiet_unless_exit (bind m k).
Proof.
  intros Hm Hk w r w' E. unfold bind in E.
  destruct (m w) as [r1 w1] eqn:E1.
  destruct r1 as [a | e | | ].
  - destruct (Hm _ _ _ E1) as [P | (c & D)]; [|discriminate].
    destruct (Hk a _ _ _ E) as [P' | (c & D)]; [left; congruence | right; eauto].
  - injection E as <- <-.
    destruct (Hm _ _ _ E1) as [P | (c & D)]; [now left|].
    right. exists c. now injection D as ->.
  - injection E as <- <-.
    destruct (Hm _ _ _ E1) as [P | (c & D)]; [now left | discriminate].
  - injection E as <- <-.
    destruct (Hm _ _ _ E1) as [P | (c & D)]; [now left | discriminate].
Qed.

Lemma quiet_args_parse R : quiet_unless_exit (args_parse R).
Proof.
  unfold args_parse. apply quiet_bind; [apply quiet_of_once, once_block|].
  intros _. destruct (gives (parse_args R)) as [args | e].
  - apply quiet_of_once, once_ret.
  - intros w r w' E. destruct e; simpl in E;
      try (injection E as <- <-; now left).
    unfold bind in E. rewrite print_all_spec in E. injection E as <- <-.
    right. eauto.
Qed.

Lemma quiet_prelude R : quiet_unless_exit (prelude R).
Proof.
  unfold prelude. apply quiet_bind; [apply quiet_of_once, once_time_time|].
  intros init. apply quiet_bind; [apply quiet_args_parse|].
  intros args. apply quiet_of_once, once_prelude_rest.
Qed.

Lemma quiet_main R : quiet_unless_exit (main R).
Proof.
  unfold main. apply quiet_bind; [apply quiet_of_once, once_time_time|].
  intros init. apply quiet_bind; [apply quiet_args_parse|].
  intros args. apply quiet_of_once, once_main_rest.
Qed.

Lemma quiet_ret_prints_nothing {A} (m : M A) (w : world) (a : A) (w' : world) :
  quiet_unless_exit m -> m w = (Ret a, w') ->
  printed (trace w') = printed (trace w).
Proof.
  intros Hm E. destruct (Hm _ _ _ E) as [P | (c & D)]; [exact P | discriminate].
Qed.

Lemma quiet_error_prints_nothing {A} (m : M A) (w : world) (e : exn)
    (w' : world) :
  quiet_unless_exit m -> m w = (Raise e, w') -> is_SystemExit e = false ->
  printed (trace w') = printed (trace w).
Proof.
  intros Hm E He. destruct (Hm _ _ _ E) as [P | (c & D)]; [exact P|].
  injection D as ->. discriminate.
Qed.

(** A statement that returns has printed nothing. *)
Lemma ret_prints_nothing {A} (m : M A) (w : world) (a : A) (w' : world) :
  reports_once m -> m w = (Ret a, w') -> printed (trace w') = printed (trace w).
Proof.
  intros Hm E. destruct (Hm _ _ _ E) as [P | (line & c & _ & D)];
    [exact P | discriminate].
Qed.

(** A statement that raises an error (not [SystemExit]) has printed
    nothing. *)
Lemma error_prints_nothing {A} (m : M A) (w : world) (e : exn) (w' : world) :
  reports_once m -> m w = (Raise e, w') -> is_SystemExit e = false ->
  printed (trace w') = printed (trace w).
Proof.
  intros Hm E He. destruct (Hm _ _ _ E) as [P | (line & c & _ & D)];
    [exact P|]. injection D as ->. discriminate.
Qed.

(** ** Statements that leave the clock alone *)

Lemma noclock_ret {A} (a : A) : reads_no_clock (ret a).
Proof. intros w r w' E. now injection E as <- <-. Qed.

Lemma noclock_raise {A} (e : exn) : reads_no_clock (@raise A e).
Proof. intros w r w' E. now injection E as <- <-. Qed.

Lemma noclock_bind {A B} (m : M A) (k : A -> M B) :
  reads_no_clock m -> (forall a, reads_no_clock (k a)) -> reads_no_clock (bind m k).
Proof.
  intros Hm Hk w r w' E. unfold bind in E.
  destruct (m w) as [r1 w1] eqn:E1. pose proof (Hm _ _ _ E1) as P.
  destruct r1 as [a | e | | ]; try (injection E as <- <-; exact P).
  rewrite (Hk a _ _ _ E). exact P.
Qed.

Lemma noclock_log (e : event) (w : world) :
  (forall t, e <> ClockRead t) ->
  clock_reads (trace (log e w)) = clock_reads (trace w).
Proof.
  intros He. unfold log; simpl. rewrite clock_reads_app.
  destruct e; simpl; try apply app_nil_r. now destruct (He t).
Qed.

Lemma noclock_print s : reads_no_clock (print s).
Proof.
  intros w r w' E. injection E as <- <-. now apply noclock_log.
Qed.

Lemma noclock_output {V} `{PyStr V} label state lines
    (perfdata : option (list (string * V))) name :
  reads_no_clock (output label state lines perfdata name).
Proof.
  unfold output. apply noclock_bind.
  - repeat match goal with |- context [if ?c then _ else _] => destruct c end;
      first [apply noclock_ret | apply noclock_raise].
  - intros s. apply noclock_bind; [apply noclock_print|].
    intros _. apply noclock_raise.
Qed.

Lemma noclock_signal_signal n : reads_no_clock (signal_signal n).
Proof.
  intros w r w' E. injection E as <- <-.
  unfold log; simpl. rewrite clock_reads_app. simpl. apply app_nil_r.
Qed.

Lemma noclock_signal_alarm n : reads_no_clock (signal_alarm n).
Proof.
  intros w r w' E. unfold signal_alarm in E.
  destruct ((n <? - 2 ^ 31) || (2 ^ 31 <=? n)); injection E as <- <-;
    [reflexivity|].
  unfold log; simpl. rewrite clock_reads_app. simpl. apply app_nil_r.
Qed.

Lemma noclock_wait d : reads_no_clock (wait d).
Proof. intros w r w' E. destruct d; now injection E as <- <-. Qed.

Lemma noclock_block d : reads_no_clock (block d).
Proof.
  intros w r w' E. unfold block in E.
  destruct (alarm_due d w) as [t|]; [|exact (noclock_wait d _ _ _ E)].
  destruct (handler w) as [n|].
  - assert (Hb : reads_no_clock (handle_sigalrm n ;; wait (remaining d (t - now w)))).
    { apply noclock_bind; [apply noclock_output | intros; apply noclock_wait]. }
    rewrite (Hb _ _ _ E). unfold log; simpl. rewrite clock_reads_app.
    simpl. apply app_nil_r.
  - injection E as <- <-. unfold log; simpl. rewrite clock_reads_app.
    simpl. apply app_nil_r.
Qed.

Lemma noclock_extern {A} (c : call A) : reads_no_clock (extern c).
Proof.
  apply noclock_bind; [apply noclock_block|].
  intros _. destruct (gives c); [apply noclock_ret | apply noclock_raise].
Qed.

Lemma noclock_when c body : reads_no_clock body -> reads_no_clock (when c body).
Proof. intros Hb. destruct c; [exact Hb | apply noclock_ret]. Qed.

#[export] Hint Resolve noclock_ret noclock_raise noclock_output
  noclock_signal_signal noclock_signal_alarm noclock_wait noclock_block
  noclock_extern noclock_when : noclock.

Lemma noclock_print_all lines : reads_no_clock (print_all lines).
Proof.
  intros w r w' E. rewrite print_all_spec in E. injection E as _ <-. simpl.
  rewrite clock_reads_app, clock_reads_map_Print. apply app_nil_r.
Qed.

Lemma noclock_args_parse R : reads_no_clock (args_parse R).
Proof.
  unfold args_parse. apply noclock_bind; [apply noclock_block|].
  intros _. destruct (gives (parse_args R)) as [args | e]; [apply noclock_ret|].
  apply noclock_bind; [|intros _; apply noclock_raise].
  apply noclock_when, noclock_print_all.
Qed.

#[export] Hint Resolve noclock_print_all noclock_args_parse : noclock.

Ltac noclock_steps :=
  repeat first [ progress cbv zeta
               | solve [auto with noclock]
               | apply noclock_when
               | apply noclock_bind; [ | intros ? ] ].

(** ** Stepping through a sequence *)

Lemma bind_Ret {A B} (m : M A) (k : A -> M B) (w w1 : world) (a : A) :
  m w = (Ret a, w1) -> bind m k w = k a w1.
Proof. intros E. unfold bind. now rewrite E. Qed.

Lemma bind_Raise {A B} (m : M A) (k : A -> M B) (w w1 : world) (e : exn) :
  m w = (Raise e, w1) -> bind m k w = (Raise e, w1).
Proof. intros E. unfold bind. now rewrite E. Qed.

(** ** The structure of a run *)

(** [main] is its prelude, then the remote call, then [check]. *)
Lemma main_split (R : Runtime) (w : world) :
  main R w =
  (x <- prelude R ;;
   result <- getcertificate R (snd x) (snd (fst x)) ;;
   check R result (fst (fst x)) (warning (snd (fst x))) (critical (snd (fst x)))) w.
Proof.
  unfold main, prelude, bind.
  destruct (time_time w) as [[init | | | ] w1]; try reflexivity.
  destruct (args_parse R w1) as [[args | | | ] w2]; try reflexivity.
  destruct (signal_signal _ w2) as [[[] | | | ] w3]; try reflexivity.
  destruct (signal_alarm _ w3) as [[[] | | | ] w4]; try reflexivity.
  destruct (when _ _ w4) as [[[] | | | ] w5]; try reflexivity.
  destruct (getclient R _ _ w5) as [[client | | | ] w6]; reflexivity.
Qed.

(** The prelude reads the clock once, at its very start, and prints
    nothing if it returns. *)
Lemma prelude_returns (R : Runtime) (w w1 : world) init args client :
  prelude R w = (Ret (init, args, client), w1) ->
  init = now w /\
  clock_reads (trace w1) = (clock_reads (trace w) ++ [now w])%list /\
  printed (trace w1) = printed (trace w).
Proof.
  intros E. split; [|split].
  - unfold prelude, bind in E. simpl in E.
    repeat match type of E with
           | match ?m with _ => _ end = _ =>
               let r := fresh "r" in destruct m as [[? | ? | | ] ?]; try discriminate
           end.
    now injection E.
  - unfold prelude in E. unfold bind at 1 in E. simpl in E.
    match type of E with
    | ?m ?w' = _ =>
        assert (Hm : reads_no_clock m)
    end.
    { unfold getclient, debug. noclock_steps. }
    rewrite (Hm _ _ _ E). unfold log; simpl. now rewrite clock_reads_app.
  - exact (quiet_ret_prints_nothing _ _ _ _ (quiet_prelude R) E).
Qed.

(** The guard: [SystemExit] from [main] is swallowed; any other exception
    is reported as CRITICAL, with [SystemExit(2)]. *)
Lemma script_cases (R : Runtime) (w : world) :
  script R w =
  match main R w with
  | (Raise e, w') =>
      if is_SystemExit e then (Ret tt, w')
      else (Raise (SystemExit (Some 2)),
            log (Print ("CRITICAL - scmd: Error: " ++ exc_info_str R e)) w')
  | other => other
  end.
Proof.
  unfold script, try_except.
  destruct (main R w) as [[[] | e | | ] w']; reflexivity.
Qed.

(** With no result [check] reports CRITICAL, by [SystemExit(2)]. *)
Lemma check_none (R : Runtime) init_time warning critical (w : world) :
  check R None init_time warning critical w
  = (Raise (SystemExit (Some 2)),
     log (Print "CRITICAL - scmd: Impossível obter certificado") w).
Proof. reflexivity. Qed.

(** When the alarm interrupts a blocking call the handler prints the
    UNKNOWN line and raises [SystemExit(3)] inside the call. *)
Lemma block_alarm (d : duration) (w : world) (t : Q) (n : Z) :
  alarm_due d w = Some t -> handler w = Some n ->
  block d w
  = (Raise (SystemExit (Some 3)),
     log (Print ("UNKNOWN - scmd: Plugin timed out after " ++
                 PyString.of_int n ++ " seconds"))
         (log (AlarmFired t) (World t None (handler w) (trace w)))).
Proof.
  intros Ha Hh. unfold block. rewrite Ha, Hh.
  unfold handle_sigalrm.
  rewrite (bind_Raise _ _ _ _ _
             (output_valid _ 3 None None default_name "UNKNOWN" _ eq_refl)).
  unfold status_line, or_empty, extra_block, perf_block.
  now rewrite !append_nil_r.
Qed.

Lemma threshold_status_cases (e : Q) (w c : Z) :
  threshold_status e w c = 0 \/ threshold_status e w c = 1 \/
  threshold_status e w c = 2.
Proof.
  unfold threshold_status.
  destruct (float_gt_int e c); [auto|]. destruct (float_gt_int e w); auto.
Qed.

Lemma parses_prints_nothing (R : Runtime) s w certs cu cc cr w' :
  parses R s w certs cu cc cr w' ->
  printed (trace w') = printed (trace w) /\
  clock_reads (trace w') = clock_reads (trace w).
Proof.
  intros (w1 & w2 & w3 & p0 & p1 & p2 & E0 & _ & _ & _ & E1 & E2 & E3).
  split.
  - rewrite (ret_prints_nothing _ _ _ _ (once_extern _) E3),
      (ret_prints_nothing _ _ _ _ (once_extern _) E2),
      (ret_prints_nothing _ _ _ _ (once_extern _) E1).
    exact (ret_prints_nothing _ _ _ _ (once_extern _) E0).
  - rewrite (noclock_extern _ _ _ _ E3), (noclock_extern _ _ _ _ E2),
      (noclock_extern _ _ _ _ E1).
    exact (noclock_extern _ _ _ _ E0).
Qed.

(** Once the bundle has parsed, [check] reads the clock, builds the label
    and calls the reporter. *)
Lemma check_parsed (R : Runtime) s init_time warning critical w
    certs cu cc cr w' :
  parses R s w certs cu cc cr w' ->
  check R (Some s) init_time warning critical w
  = (let time_seconds := round5 (now w' - init_time) in
     let status := threshold_status time_seconds warning critical in
     label <- str_add ("Certificado emitido para " ++ PyString.dquote)
                      (subject_CN R cu) ;;
     label <- str_add (label ++ (PyString.dquote ++
                                 " pela Entidade de Certificação " ++
                                 PyString.dquote))
                      (subject_CN R cc) ;;
     label <- str_add (label ++ (PyString.dquote ++ " na hierarquia do " ++
                                 PyString.dquote))
                      (subject_CN R cr) ;;
     output (H := float_str R) (label ++ PyString.dquote) status (Some [])
            (Some [("time_seconds", time_seconds)]) default_name)
    (log (ClockRead (now w')) w').
Proof.
  intros (w1 & w2 & w3 & p0 & p1 & p2 & E0 & N0 & N1 & N2 & E1 & E2 & E3).
  unfold check.
  rewrite (bind_Ret _ _ w w tt) by reflexivity.
  rewrite (bind_Ret _ _ w w s) by reflexivity.
  rewrite (bind_Ret _ _ _ _ _ E0).
  rewrite (bind_Ret _ _ w1 w2 cu)
    by (rewrite (bind_Ret _ _ w1 w1 p0) by (unfold index; now rewrite N0);
        exact E1).
  rewrite (bind_Ret _ _ w2 w3 cc)
    by (rewrite (bind_Ret _ _ w2 w2 p2) by (unfold index; now rewrite N2);
        exact E2).
  rewrite (bind_Ret _ _ w3 w' cr)
    by (rewrite (bind_Ret _ _ w3 w3 p1) by (unfold index; now rewrite N1);
        exact E3).
  now rewrite (bind_Ret _ _ w' (log (ClockRead (now w')) w') (now w')).
Qed.

(** A completed check: the bundle parses, the three subjects have a common
    name; the clock is read and the line of the specification is printed
    with the level of [threshold_status]. *)
Lemma check_completed (R : Runtime) s init_time warning critical w
    certs cu cc cr w' user_cn ca_cn root_cn :
  parses R s w certs cu cc cr w' ->
  subject_CN R cu = Some user_cn ->
  subject_CN R cc = Some ca_cn ->
  subject_CN R cr = Some root_cn ->
  let time_seconds := round5 (now w' - init_time) in
  let status := threshold_status time_seconds warning critical in
  exists level,
    levelname status = Some level /\
    check R (Some s) init_time warning critical w
    = (Raise (SystemExit (Some status)),
       log (Print (completed_line R level user_cn ca_cn root_cn time_seconds))
           (log (ClockRead (now w')) w')).
Proof.
  intros P Cu Cc Cr time_seconds status.
  assert (Hl : exists level, levelname status = Some level).
  { apply levelname_valid. subst status.
    destruct (threshold_status_cases time_seconds warning critical)
      as [-> | [-> | ->]]; lia. }
  destruct Hl as [level Hl]. exists level. split; [exact Hl|].
  rewrite (check_parsed _ _ _ _ _ _ _ _ _ _ _ P).
  cbv zeta. rewrite Cu, Cc, Cr. cbn [str_add bind ret].
  fold time_seconds. fold status.
  rewrite (output_valid _ _ _ _ _ _ _ Hl).
  unfold completed_line, status_line, or_empty, extra_block, perf_block,
    perf_pair, issued_label, default_name, str.
  cbn [map fst snd PyString.join].
  repeat rewrite append_assoc. reflexivity.
Qed.

(** Whatever the certificates are, a check whose bundle has parsed ends in
    a TypeError (a subject without common name) or in [SystemExit] with the
    level of [threshold_status]. *)
Lemma check_parsed_outcome (R : Runtime) s init_time warning critical w
    certs cu cc cr w' :
  parses R s w certs cu cc cr w' ->
  fst (check R (Some s) init_time warning critical w) = Raise TypeError \/
  fst (check R (Some s) init_time warning critical w)
  = Raise (SystemExit (Some (threshold_status (round5 (now w' - init_time))
                                              warning critical))).
Proof.
  intros P.
  destruct (subject_CN R cu) as [u|] eqn:Cu;
    [destruct (subject_CN R cc) as [c|] eqn:Cc;
     [destruct (subject_CN R cr) as [r|] eqn:Cr|]|].
  - right.
    destruct (check_completed R s init_time warning critical w _ _ _ _ _
                _ _ _ P Cu Cc Cr) as (level & _ & E).
    now rewrite E.
  - left. rewrite (check_parsed _ _ _ _ _ _ _ _ _ _ _ P).
    cbv zeta. now rewrite Cu, Cc, Cr.
  - left. rewrite (check_parsed _ _ _ _ _ _ _ _ _ _ _ P).
    cbv zeta. now rewrite Cu, Cc.
  - left. rewrite (check_parsed _ _ _ _ _ _ _ _ _ _ _ P).
    cbv zeta. now rewrite Cu.
Qed.

(** Once the prelude has returned, [main] is the remote call and [check]. *)
Lemma main_after_prelude (R : Runtime) (w w1 : world) init args client :
  prelude R w = (Ret (init, args, client), w1) ->
  main R w =
  (result <- getcertificate R client args ;;
   check R result init (warning args) (critical args)) w1.
Proof.
  intros E. rewrite main_split. now rewrite (bind_Ret _ _ _ _ _ E).
Qed.

(** ** The threshold evaluation *)

Lemma float_gt_int_spec (x : Q) (n : Z) :
  reflect (inject_Z n < x)%Q (float_gt_int x n).
Proof.
  unfold float_gt_int.
  destruct (Qle_bool x (inject_Z n)) eqn:E; simpl; constructor.
  - apply Qle_bool_iff in E. now apply Qle_not_lt.
  - apply Qnot_le_lt. intros L. apply Qle_bool_iff in L. congruence.
Qed.

Lemma threshold_status_critical (e : Q) (w c : Z) :
  (inject_Z c < e)%Q -> threshold_status e w c = 2.
Proof.
  intros H. unfold threshold_status.
  destruct (float_gt_int_spec e c); [reflexivity | contradiction].
Qed.

Lemma threshold_status_warning (e : Q) (w c : Z) :
  (e <= inject_Z c)%Q -> (inject_Z w < e)%Q -> threshold_status e w c = 1.
Proof.
  intros Hc Hw. unfold threshold_status.
  destruct (float_gt_int_spec e c) as [L|_]; [now apply Qle_not_lt in Hc|].
  destruct (float_gt_int_spec e w); [reflexivity | contradiction].
Qed.

Lemma threshold_status_ok (e : Q) (w c : Z) :
  (e <= inject_Z c)%Q -> (e <= inject_Z w)%Q -> threshold_status e w c = 0.
Proof.
  intros Hc Hw. unfold threshold_status.
  destruct (float_gt_int_spec e c) as [L|_]; [now apply Qle_not_lt in Hc|].
  destruct (float_gt_int_spec e w) as [L|_]; [now apply Qle_not_lt in Hw|].
  reflexivity.
Qed.

(** The three cases of the evaluation, by the position of [e]. *)
Lemma threshold_status_spec (e : Q) (w c : Z) :
  ((inject_Z c < e)%Q /\ threshold_status e w c = 2) \/
  ((e <= inject_Z c)%Q /\ (inject_Z w < e)%Q /\ threshold_status e w c = 1) \/
  ((e <= inject_Z c)%Q /\ (e <= inject_Z w)%Q /\ threshold_status e w c = 0).
Proof.
  destruct (Qlt_le_dec (inject_Z c) e) as [Hc|Hc].
  - left. split; [exact Hc | now apply threshold_status_critical].
  - destruct (Qlt_le_dec (inject_Z w) e) as [Hw|Hw].
    + right; left. repeat split; try assumption.
      now apply threshold_status_warning.
    + right; right. repeat split; try assumption.
      now apply threshold_status_ok.
Qed.

(** Equal elapsed times get the same level. *)
Lemma threshold_status_compat (e e' : Q) (w c : Z) :
  (e' == e)%Q -> threshold_status e' w c = threshold_status e w c.
Proof.
  intros Ee. unfold threshold_status, float_gt_int.
  rewrite (Qleb_comp _ _ Ee (inject_Z c) _ (Qeq_refl _)).
  now rewrite (Qleb_comp _ _ Ee (inject_Z w) _ (Qeq_refl _)).
Qed.

(** C1 (as amended). For every elapsed time [e] and thresholds [w], [c],
    the threshold evaluation of [check] gives CRITICAL (2) iff [e > c],
    WARNING (1) iff [e <= c] and [e > w], and OK (0) iff [e <= c] and
    [e <= w]; it depends on the values of [e], [w] and [c] only.  The
    comparisons are strict: [e == c] is never CRITICAL and [e == w] is
    never WARNING; [e == w] gives OK when [w <= c], and [e == c] gives
    WARNING when [w < c]. *)
Theorem C1_threshold_status (e : Q) (w c : Z) :
  (threshold_status e w c = 2 <-> (inject_Z c < e)%Q) /\
  (threshold_status e w c = 1 <-> (e <= inject_Z c)%Q /\ (inject_Z w < e)%Q) /\
  (threshold_status e w c = 0 <-> (e <= inject_Z c)%Q /\ (e <= inject_Z w)%Q) /\
  (forall e', (e' == e)%Q -> threshold_status e' w c = threshold_status e w c) /\
  ((e == inject_Z c)%Q -> threshold_status e w c <> 2) /\
  ((e == inject_Z w)%Q -> threshold_status e w c <> 1) /\
  ((e == inject_Z w)%Q -> w <= c -> threshold_status e w c = 0) /\
  ((e == inject_Z c)%Q -> w < c -> threshold_status e w c = 1).
Proof.
  assert (H2 : threshold_status e w c = 2 <-> (inject_Z c < e)%Q).
  { split; [|apply threshold_status_critical].
    intros E. destruct (threshold_status_spec e w c)
      as [[H _] | [(_ & _ & H) | (_ & _ & H)]]; [exact H | congruence ..]. }
  assert (H1 : threshold_status e w c = 1 <->
               (e <= inject_Z c)%Q /\ (inject_Z w < e)%Q).
  { split; [|intros [Hc Hw]; now apply threshold_status_warning].
    intros E. destruct (threshold_status_spec e w c)
      as [[_ H] | [(Hc & Hw & _) | (_ & _ & H)]]; [congruence | auto | congruence]. }
  assert (H0 : threshold_status e w c = 0 <->
               (e <= inject_Z c)%Q /\ (e <= inject_Z w)%Q).
  { split; [|intros [Hc Hw]; now apply threshold_status_ok].
    intros E. destruct (threshold_status_spec e w c)
      as [[_ H] | [(_ & _ & H) | (Hc & Hw & _)]]; [congruence | congruence | auto]. }
  refine (conj H2 (conj H1 (conj H0 (conj _ (conj _ (conj _ (conj _ _))))))).
  - intros e' Ee. now apply threshold_status_compat.
  - intros Ee E. apply H2 in E. rewrite Ee in E. now apply Qlt_irrefl in E.
  - intros Ee E. apply H1 in E. destruct E as [_ E]. rewrite Ee in E.
    now apply Qlt_irrefl in E.
  - intros Ee L. apply H0. rewrite Ee. split; [|apply Qle_refl].
    rewrite <- Zle_Qle. exact L.
  - intros Ee L. apply H1. rewrite Ee. split; [apply Qle_refl|].
    rewrite <- Zlt_Qlt. exact L.
Qed.

(** C1, at the default thresholds: 3 seconds is OK, 6 seconds is WARNING. *)
Lemma C1_threshold_status_witness :
  threshold_status 3 3 6 = 0 /\ threshold_status 6 3 6 = 1.
Proof.
  split.
  - apply (C1_threshold_status 3 3 6); [reflexivity | lia].
  - apply (C1_threshold_status 6 3 6); [reflexivity | lia].
Defined.

(** C1 as first stated fails where the thresholds meet or cross: with
    [w = c = 3] an elapsed time equal to [c] is OK, not WARNING; with
    [w = 5 > c = 3] an elapsed time equal to [w] is CRITICAL, not OK. *)
Lemma C1_counterexample :
  ((3 == inject_Z 3)%Q /\ threshold_status 3 3 3 = 0 /\
   threshold_status 3 3 3 <> 1) /\
  ((5 == inject_Z 5)%Q /\ threshold_status 5 5 3 = 2 /\
   threshold_status 5 5 3 <> 0).
Proof.
  repeat split; try reflexivity; discriminate.
Qed.

(** ** The reporter's line and its refusal of other levels *)

(** C7. For every label, every state in {0,1,2,3}, every list of extra
    lines and every performance-data mapping (absent ones standing for the
    empty ones), [output] prints exactly one line,
    [<LEVELNAME> - <name>: <label>], followed by [' - '] and the extra
    lines joined by spaces iff there are extra lines, followed by ['|'] and
    the ['<key>'=<value>] pairs joined by spaces iff there is performance
    data; LEVELNAME is OK for 0, WARNING for 1, CRITICAL for 2 and UNKNOWN
    for 3. *)
Theorem C7_output_format {V} `{PyStr V} (label : string) (state : Z)
    (lines : option (list string)) (perfdata : option (list (string * V)))
    (name : string) (w : world) :
  0 <= state <= 3 ->
  exists level,
    levelname state = Some level /\
    output label state lines perfdata name w
    = (Raise (SystemExit (Some state)),
       log (Print (level ++ " - " ++ name ++ ": " ++ label ++
                   extra_block (or_empty lines) ++
                   perf_block (or_empty perfdata))) w) /\
    printed (trace (snd (output label state lines perfdata name w)))
    = (printed (trace w) ++
       [status_line level name label (or_empty lines) (or_empty perfdata)])%list /\
    (extra_block (or_empty lines) = "" <-> or_empty lines = []) /\
    (perf_block (or_empty perfdata) = "" <-> or_empty perfdata = []) /\
    levelname 0 = Some "OK" /\ levelname 1 = Some "WARNING" /\
    levelname 2 = Some "CRITICAL" /\ levelname 3 = Some "UNKNOWN".
Proof.
  intros Hs. destruct (proj1 (levelname_valid state) Hs) as [level El].
  exists level. split; [exact El|].
  rewrite (output_valid _ _ _ _ _ _ _ El).
  split; [reflexivity|]. split.
  - unfold log; simpl. now rewrite printed_app.
  - split; [apply extra_block_empty|]. split; [apply perf_block_empty|].
    repeat split.
Qed.

(** C7 on [output('lbl', 1, ['a', 'b'], {'k': 1, 'j': -2}, 'n')]. *)
Lemma C7_output_format_witness :
  0 <= 1 <= 3 /\
  exists level,
    levelname 1 = Some level /\
    output "lbl" 1 (Some ["a"; "b"]) (Some [("k", 1); ("j", -2)]) "n" w0
    = (Raise (SystemExit (Some 1)),
       log (Print (level ++ " - " ++ "n" ++ ": " ++ "lbl" ++
                   extra_block ["a"; "b"] ++
                   perf_block [("k", 1); ("j", -2)])) w0).
Proof.
  split; [lia|].
  destruct (C7_output_format "lbl" 1 (Some ["a"; "b"])
              (Some [("k", 1); ("j", -2)]) "n" w0 ltac:(lia))
    as (level & El & Eo & _).
  exists level. split; [exact El | exact Eo].
Defined.

(** C9. For every level outside {0,1,2,3}, [output] raises (a
    RuntimeError) and prints nothing; and it raises that error iff the
    level is not one of the four. *)
Theorem C9_output_invalid_level {V} `{PyStr V} (label : string) (state : Z)
    (lines : option (list string)) (perfdata : option (list (string * V)))
    (name : string) (w : world) :
  (~ 0 <= state <= 3 ->
   output label state lines perfdata name w
   = (Raise (RuntimeError "ERROR: State programming error."), w)) /\
  ((exists msg, fst (output label state lines perfdata name w)
                = Raise (RuntimeError msg))
   <-> ~ 0 <= state <= 3).
Proof.
  split; [apply output_invalid|]. split.
  - intros [msg E] Hs.
    destruct (proj1 (levelname_valid state) Hs) as [level El].
    rewrite (output_valid _ _ _ _ _ _ _ El) in E. discriminate.
  - intros Hs. rewrite output_invalid by exact Hs. simpl. eauto.
Qed.

(** C9 on [output('lbl', 4)] and [output('lbl', -1)]. *)
Lemma C9_output_invalid_level_witness :
  output (V := Z) "lbl" 4 None None default_name w0
  = (Raise (RuntimeError "ERROR: State programming error."), w0) /\
  output (V := Z) "lbl" (-1) None None default_name w0
  = (Raise (RuntimeError "ERROR: State programming error."), w0).
Proof.
  split.
  - apply (C9_output_invalid_level (V := Z) "lbl" 4 None None default_name w0).
    lia.
  - apply (C9_output_invalid_level (V := Z) "lbl" (-1) None None default_name w0).
    lia.
Defined.

(** ** Whole runs *)

(** A blocking call that returns leaves the handler in place. *)
Lemma block_keeps_handler (d : duration) (w w' : world) :
  block d w = (Ret tt, w') -> handler w' = handler w.
Proof.
  unfold block. destruct (alarm_due d w) as [t|].
  - destruct (handler w) as [n|]; [|discriminate].
    unfold handle_sigalrm.
    rewrite (bind_Raise _ _ _ _ _
               (output_valid _ 3 None None default_name "UNKNOWN" _ eq_refl)).
    discriminate.
  - destruct d; simpl; intros E; [now injection E as <- | discriminate].
Qed.

Lemma extern_keeps_handler {A} (c : call A) (w w' : world) (a : A) :
  extern c w = (Ret a, w') -> handler w' = handler w.
Proof.
  unfold extern, bind. destruct (block (takes c) w) as [[[] | | | ] w1] eqn:E;
    try discriminate.
  apply block_keeps_handler in E.
  destruct (gives c); simpl; intros E'; [|discriminate].
  injection E' as _ <-. exact E.
Qed.

(** After the prelude the handler of the deadline is [timeout + 5]. *)
Lemma prelude_handler (R : Runtime) (w w1 : world) init args client :
  prelude R w = (Ret (init, args, client), w1) ->
  handler w1 = Some (timeout args + 5).
Proof.
  unfold prelude. unfold bind at 1. simpl.
  unfold bind at 1.
  destruct (args_parse R _) as [[args' | | | ] wa]; try discriminate.
  unfold bind at 1. simpl. unfold bind at 1. unfold signal_alarm.
  destruct ((timeout args' + 5 <? - 2 ^ 31) || (2 ^ 31 <=? timeout args' + 5));
    [discriminate|].
  unfold bind at 1.
  destruct (when (verbose args') debug _) as [[[] | | | ] wd] eqn:Ed;
    try discriminate.
  assert (Hd : handler wd = Some (timeout args' + 5)).
  { destruct (verbose args'); simpl in Ed; injection Ed as <-; reflexivity. }
  unfold bind.
  destruct (getclient R _ _ wd) as [[client' | | | ] wc] eqn:Ec; try discriminate.
  intros E. injection E as _ <- _ <-.
  unfold getclient in Ec. now rewrite (extern_keeps_handler _ _ _ _ Ec).
Qed.

(** The remote call has returned: [main] goes on with [check]; so far the
    clock was read once, when the run started, and nothing was printed. *)
Lemma after_fetch (R : Runtime) init args client w1 result w2 :
  prelude R (boot R) = (Ret (init, args, client), w1) ->
  getcertificate R client args w1 = (Ret result, w2) ->
  main R (boot R) = check R result init (warning args) (critical args) w2 /\
  init = boot_time R /\
  printed (trace w2) = [] /\
  clock_reads (trace w2) = [boot_time R].
Proof.
  intros Ep Ef.
  destruct (prelude_returns _ _ _ _ _ _ Ep) as (Ei & Ec & Epr).
  split; [|split; [exact Ei|split]].
  - rewrite (main_after_prelude _ _ _ _ _ _ Ep). now rewrite (bind_Ret _ _ _ _ _ Ef).
  - unfold getcertificate in Ef.
    rewrite (ret_prints_nothing _ _ _ _ (once_extern _) Ef). exact Epr.
  - unfold getcertificate in Ef.
    rewrite (noclock_extern _ _ _ _ Ef). exact Ec.
Qed.

(** [SystemExit] out of [main] is swallowed by the guard: the process ends
    normally, with status 0, whatever the code of the exit was. *)
Lemma run_exit_swallowed (R : Runtime) (c : option Z) (w' : world) :
  main R (boot R) = (Raise (SystemExit c), w') ->
  script R (boot R) = (Ret tt, w') /\ run R = (Exited 0, printed (trace w')).
Proof.
  intros E. assert (Es : script R (boot R) = (Ret tt, w')).
  { rewrite script_cases, E. reflexivity. }
  split; [exact Es|]. unfold run. now rewrite Es.
Qed.

(** Any other exception out of [main] is reported as CRITICAL, and that
    report is the whole output. *)
Lemma run_error (R : Runtime) (e : exn) (w' : world) :
  main R (boot R) = (Raise e, w') -> is_SystemExit e = false ->
  script R (boot R)
  = (Raise (SystemExit (Some 2)),
     log (Print ("CRITICAL - scmd: Error: " ++ exc_info_str R e)) w') /\
  run R = (Exited 2, ["CRITICAL - scmd: Error: " ++ exc_info_str R e]).
Proof.
  intros E He.
  assert (Es : script R (boot R)
               = (Raise (SystemExit (Some 2)),
                  log (Print ("CRITICAL - scmd: Error: " ++ exc_info_str R e)) w')).
  { rewrite script_cases, E, He. reflexivity. }
  split; [exact Es|]. unfold run. rewrite Es.
  unfold log; simpl. rewrite printed_app.
  now rewrite (quiet_error_prints_nothing _ _ _ _ (quiet_main R) E He).
Qed.

(** A run never ends on an unhandled exception. *)
Lemma run_no_traceback (R : Runtime) (e : exn) : fst (run R) <> Traceback e.
Proof.
  unfold run. rewrite script_cases.
  destruct (main R (boot R)) as [[[] | e' | | ] w']; try discriminate.
  destruct (is_SystemExit e'); discriminate.
Qed.

(** The run of a completed check, in full. *)
Lemma run_completed (R : Runtime) init args client w1 s w2
    certs cu cc cr w3 user_cn ca_cn root_cn :
  prelude R (boot R) = (Ret (init, args, client), w1) ->
  getcertificate R client args w1 = (Ret (Some s), w2) ->
  parses R s w2 certs cu cc cr w3 ->
  subject_CN R cu = Some user_cn ->
  subject_CN R cc = Some ca_cn ->
  subject_CN R cr = Some root_cn ->
  let time_seconds := round5 (now w3 - boot_time R) in
  let status := threshold_status time_seconds (warning args) (critical args) in
  exists level,
    levelname status = Some level /\
    main R (boot R)
    = (Raise (SystemExit (Some status)),
       log (Print (completed_line R level user_cn ca_cn root_cn time_seconds))
           (log (ClockRead (now w3)) w3)) /\
    printed (trace w3) = [] /\
    clock_reads (trace w3) = [boot_time R].
Proof.
  intros Ep Ef P Cu Cc Cr time_seconds status.
  destruct (after_fetch _ _ _ _ _ _ _ Ep Ef) as (Em & Ei & Epr & Ecl).
  destruct (check_completed R s init (warning args) (critical args) w2 _ _ _ _ _
              _ _ _ P Cu Cc Cr) as (level & El & Ec).
  rewrite Ei in Ec, Em, El.
  exists level. split; [exact El|]. split; [now rewrite Em|].
  destruct (parses_prints_nothing _ _ _ _ _ _ _ _ P) as [Pp Pc].
  split; congruence.
Qed.

(** The run in which the deadline interrupts the remote call. *)
Lemma run_deadline (R : Runtime) init args client w1 t :
  prelude R (boot R) = (Ret (init, args, client), w1) ->
  alarm_due (takes (GetCertificate R client (a args) (user args))) w1 = Some t ->
  run R = (Exited 0,
           ["UNKNOWN - scmd: Plugin timed out after " ++
            PyString.of_int (timeout args + 5) ++ " seconds"]) /\
  clock_reads (trace (snd (script R (boot R)))) = [boot_time R].
Proof.
  intros Ep Ea.
  destruct (prelude_returns _ _ _ _ _ _ Ep) as (_ & Ec & Epr).
  pose proof (prelude_handler _ _ _ _ _ _ Ep) as Eh.
  pose proof (block_alarm _ _ _ _ Ea Eh) as Eb.
  assert (Em : main R (boot R) = (Raise (SystemExit (Some 3)),
            log (Print ("UNKNOWN - scmd: Plugin timed out after " ++
                        PyString.of_int (timeout args + 5) ++ " seconds"))
              (log (AlarmFired t) (World t None (handler w1) (trace w1))))).
  { rewrite (main_after_prelude _ _ _ _ _ _ Ep).
    apply bind_Raise. unfold getcertificate, extern. now apply bind_Raise. }
  destruct (run_exit_swallowed _ _ _ Em) as [Es Er].
  rewrite Er, Es. unfold log; simpl.
  rewrite !printed_app, !clock_reads_app, Epr, Ec. simpl. split; reflexivity.
Qed.

(** ** Errors *)

(** C2 (as amended). For every error (any exception but [SystemExit])
    that escapes [main], raised by the remote call or anywhere else in the
    run, the guard catches it and the probe prints a single status line,
    ['CRITICAL - scmd: Error: '] followed by the text of
    [sys.exc_info()] (the type, the value and the traceback of the error),
    and the process exits with code 2; no run ends on an unhandled
    exception. *)
Theorem C2_errors_reported_critical (R : Runtime) :
  (forall e w',
     main R (boot R) = (Raise e, w') -> is_SystemExit e = false ->
     run R = (Exited 2, ["CRITICAL - scmd: Error: " ++ exc_info_str R e])) /\
  (forall init args client w1 e w2,
     prelude R (boot R) = (Ret (init, args, client), w1) ->
     getcertificate R client args w1 = (Raise e, w2) ->
     is_SystemExit e = false ->
     run R = (Exited 2, ["CRITICAL - scmd: Error: " ++ exc_info_str R e])) /\
  (forall e, fst (run R) <> Traceback e).
Proof.
  split; [|split].
  - intros e w' E He. exact (proj2 (run_error R e w' E He)).
  - intros init args client w1 e w2 Ep Ef He.
    refine (proj2 (run_error R e w2 _ He)).
    rewrite (main_after_prelude _ _ _ _ _ _ Ep). now apply bind_Raise.
  - apply run_no_traceback.
Qed.

(** C2 on a remote call that raises "connection refused". *)
Lemma C2_errors_reported_critical_witness :
  run (Demo.runtime Demo.refused)
  = (Exited 2,
     ["CRITICAL - scmd: Error: (<class 'Exception'>, Exception('connection refused'), <traceback object at 0x7f3a5c0b1e80>)"]).
Proof.
  apply (proj1 (proj2 (C2_errors_reported_critical (Demo.runtime Demo.refused)))
           1000%Q Demo.default_args tt
           (snd (prelude (Demo.runtime Demo.refused)
                         (boot (Demo.runtime Demo.refused))))
           (External "Exception" "connection refused")
           (snd (getcertificate (Demo.runtime Demo.refused) tt
                   Demo.default_args
                   (snd (prelude (Demo.runtime Demo.refused)
                                 (boot (Demo.runtime Demo.refused)))))));
    reflexivity.
Defined.

(** C2 as first stated fails: when the remote call raises "connection
    refused" the line starts with CRITICAL, not UNKNOWN, and the exit code
    is 2, not 3. *)
Lemma C2_counterexample :
  exists line,
    run (Demo.runtime Demo.refused) = (Exited 2, [line]) /\
    PyString.startswith "UNKNOWN - scmd: Error:" line = false /\
    PyString.startswith "CRITICAL - scmd: Error:" line = true /\
    Exited 2 <> Exited 3.
Proof.
  eexists. split; [reflexivity|]. repeat split. discriminate.
Qed.

(** C4 (as amended). If the remote call returns no result, the probe
    prints exactly ['CRITICAL - scmd: Impossível obter certificado'], with
    no performance block, through [output(..., 2)]. *)
Theorem C4_empty_result (R : Runtime) :
  (forall init_time warning critical w,
     check R None init_time warning critical w
     = (Raise (SystemExit (Some 2)),
        log (Print "CRITICAL - scmd: Impossível obter certificado") w)) /\
  (forall init args client w1 w2,
     prelude R (boot R) = (Ret (init, args, client), w1) ->
     getcertificate R client args w1 = (Ret None, w2) ->
     snd (run R) = ["CRITICAL - scmd: Impossível obter certificado"]).
Proof.
  split; [intros; apply check_none|].
  intros init args client w1 w2 Ep Ef.
  destruct (after_fetch _ _ _ _ _ _ _ Ep Ef) as (Em & _ & Epr & _).
  rewrite check_none in Em.
  rewrite (proj2 (run_exit_swallowed _ _ _ Em)).
  unfold log; simpl. now rewrite printed_app, Epr.
Qed.

(** C4 on a remote call that answers nothing. *)
Lemma C4_empty_result_witness :
  snd (run (Demo.runtime Demo.empty_answer))
  = ["CRITICAL - scmd: Impossível obter certificado"].
Proof.
  apply (proj2 (C4_empty_result (Demo.runtime Demo.empty_answer))
           1000%Q Demo.default_args tt
           (snd (prelude (Demo.runtime Demo.empty_answer)
                         (boot (Demo.runtime Demo.empty_answer))))
           (snd (getcertificate (Demo.runtime Demo.empty_answer) tt
                   Demo.default_args
                   (snd (prelude (Demo.runtime Demo.empty_answer)
                                 (boot (Demo.runtime Demo.empty_answer)))))));
    reflexivity.
Defined.

(** C4 as first stated fails: the line is not the English one. *)
Lemma C4_counterexample :
  snd (run (Demo.runtime Demo.empty_answer))
  = ["CRITICAL - scmd: Impossível obter certificado"] /\
  snd (run (Demo.runtime Demo.empty_answer))
  <> ["CRITICAL - scmd: Impossible to obtain certificate"].
Proof.
  split; [reflexivity | discriminate].
Qed.

(** ** The completed check *)

Lemma extern_gives {A} (c : call A) (w w' : world) (x : A) :
  extern c w = (Ret x, w') -> gives c = inl x.
Proof.
  unfold extern, bind.
  destruct (block (takes c) w) as [[[] | | | ] w1]; try discriminate.
  destruct (gives c); simpl; intros E; [|discriminate]. now injection E as ->.
Qed.

(** C3 (as amended). For every populated result whose text parses into at
    least three PEM objects of which the first three load as certificates
    with a common name in their subject, [user] is object [0], [root] is
    object [1] and [ca] is object [2], and the probe prints the line
    [<LEVELNAME> - scmd: Certificado emitido para "<user CN>" pela Entidade
    de Certificação "<ca CN>" na hierarquia do "<root CN>"] followed by
    [|'time_seconds'=<elapsed>].  The other reports carry no performance
    data: the empty-result CRITICAL line, the error line and the UNKNOWN
    line of the deadline are printed as they are. *)
Theorem C3_completed_report (R : Runtime) :
  (forall init args client w1 s w2 certs cu cc cr w3 user_cn ca_cn root_cn,
     prelude R (boot R) = (Ret (init, args, client), w1) ->
     getcertificate R client args w1 = (Ret (Some s), w2) ->
     parses R s w2 certs cu cc cr w3 ->
     subject_CN R cu = Some user_cn ->
     subject_CN R cc = Some ca_cn ->
     subject_CN R cr = Some root_cn ->
     (exists p0 p1 p2,
        nth_error certs 0 = Some p0 /\ gives (load_certificate R p0) = inl cu /\
        nth_error certs 1 = Some p1 /\ gives (load_certificate R p1) = inl cr /\
        nth_error certs 2 = Some p2 /\ gives (load_certificate R p2) = inl cc) /\
     (exists level,
        levelname (threshold_status (round5 (now w3 - boot_time R))
                                    (warning args) (critical args))
        = Some level /\
        snd (run R)
        = [level ++ " - scmd: " ++
           "Certificado emitido para " ++ PyString.dquote ++ user_cn ++
           PyString.dquote ++ " pela Entidade de Certificação " ++
           PyString.dquote ++ ca_cn ++ PyString.dquote ++
           " na hierarquia do " ++ PyString.dquote ++ root_cn ++
           PyString.dquote ++
           "|'time_seconds'=" ++ float_str R (round5 (now w3 - boot_time R))])) /\
  (forall init args client w1 w2,
     prelude R (boot R) = (Ret (init, args, client), w1) ->
     getcertificate R client args w1 = (Ret None, w2) ->
     snd (run R) = ["CRITICAL - scmd: Impossível obter certificado"]) /\
  (forall e w',
     main R (boot R) = (Raise e, w') -> is_SystemExit e = false ->
     snd (run R) = ["CRITICAL - scmd: Error: " ++ exc_info_str R e]) /\
  (forall init args client w1 t,
     prelude R (boot R) = (Ret (init, args, client), w1) ->
     alarm_due (takes (GetCertificate R client (a args) (user args))) w1 = Some t ->
     snd (run R) = ["UNKNOWN - scmd: Plugin timed out after " ++
                    PyString.of_int (timeout args + 5) ++ " seconds"]).
Proof.
  split; [|split; [|split]].
  - intros init args client w1 s w2 certs cu cc cr w3 user_cn ca_cn root_cn
           Ep Ef P Cu Cc Cr.
    split.
    + destruct P as (wa & wb & wc & p0 & p1 & p2 & _ & N0 & N1 & N2 & E1 & E2 & E3).
      exists p0, p1, p2.
      repeat split; try assumption; eapply extern_gives; eassumption.
    + destruct (run_completed R _ _ _ _ _ _ _ _ _ _ _ _ _ _ Ep Ef P Cu Cc Cr)
        as (level & El & Em & Epr & _).
      exists level. split; [exact El|].
      rewrite (proj2 (run_exit_swallowed _ _ _ Em)).
      unfold log; simpl. rewrite !printed_app, Epr. simpl.
      unfold completed_line, issued_label.
      repeat rewrite append_assoc. reflexivity.
  - intros init args client w1 w2 Ep Ef.
    destruct (after_fetch _ _ _ _ _ _ _ Ep Ef) as (Em & _ & Epr & _).
    rewrite check_none in Em.
    rewrite (proj2 (run_exit_swallowed _ _ _ Em)).
    unfold log; simpl. now rewrite printed_app, Epr.
  - intros e w' E He. now rewrite (proj2 (run_error R e w' E He)).
  - intros init args client w1 t Ep Ea.
    now rewrite (proj1 (run_deadline R _ _ _ _ _ Ep Ea)).
Qed.

(** In a demo run whose remote call answers three certificates [n0], [n1],
    [n2] and where every step is on time, the parsing goes through. *)
Ltac demo_parses :=
  unfold parses;
  eexists _, _, _, _, _, _;
  repeat split; vm_compute; reflexivity.

(** C3 on the run of the specification: the remote call answers the
    bundle of Jane Doe, ROOT CA and ISSUING CA after 2 seconds, with the
    default thresholds 3 and 6. *)
Lemma C3_completed_report_witness :
  snd (run (Demo.runtime (Demo.answers_after 2)))
  = ["OK - scmd: Certificado emitido para " ++ PyString.dquote ++ "Jane Doe" ++
     PyString.dquote ++ " pela Entidade de Certificação " ++ PyString.dquote ++
     "ISSUING CA" ++ PyString.dquote ++ " na hierarquia do " ++
     PyString.dquote ++ "ROOT CA" ++ PyString.dquote ++ "|'time_seconds'=2.0"].
Proof.
  pose (R := Demo.runtime (Demo.answers_after 2)).
  pose (w1 := snd (prelude R (boot R))).
  pose (w2 := snd (getcertificate R tt Demo.default_args w1)).
  assert (P : parses R Demo.jane w2
                [Demo.Certificate (Some "Jane Doe");
                 Demo.Certificate (Some "ROOT CA");
                 Demo.Certificate (Some "ISSUING CA")]
                (Some "Jane Doe") (Some "ISSUING CA") (Some "ROOT CA")
                (World 1002 (Some 1025%Q) (Some 25)
                   [ClockRead 1000; HandlerInstalled 25; AlarmArmed 25]))
    by demo_parses.
  destruct (proj1 (C3_completed_report R) 1000%Q Demo.default_args tt w1
              Demo.jane w2 _ _ _ _ _ "Jane Doe" "ISSUING CA" "ROOT CA"
              eq_refl eq_refl P eq_refl eq_refl eq_refl)
    as [_ (level & El & Er)].
  vm_compute in El. injection El as <-. exact Er.
Defined.

(** C3 as first stated fails: a populated result of three PEM blocks
    whose first certificate has no common name, or whose third block does
    not load as a certificate, is reported as an error, without the
    certificate line. *)
Lemma C3_counterexample :
  (List.length (Demo.objects
     (Demo.bundle [Demo.Certificate None; Demo.Certificate (Some "ROOT CA");
                   Demo.Certificate (Some "ISSUING CA")])) = 3%nat /\
   run (Demo.runtime Demo.nameless_user)
   = (Exited 2, ["CRITICAL - scmd: Error: " ++ Demo.exc_info TypeError])) /\
  (List.length (Demo.objects
     (Demo.bundle [Demo.Certificate (Some "Jane Doe");
                   Demo.Certificate (Some "ROOT CA"); Demo.Garbage])) = 3%nat /\
   run (Demo.runtime Demo.garbled_ca)
   = (Exited 2, ["CRITICAL - scmd: Error: " ++
                 Demo.exc_info (External "OpenSSL.crypto.Error" "[]")])) /\
  (forall state level user_cn ca_cn root_cn time_seconds,
     levelname state = Some level ->
     snd (run (Demo.runtime Demo.nameless_user))
     <> [completed_line (Demo.runtime Demo.nameless_user) level
           user_cn ca_cn root_cn time_seconds] /\
     snd (run (Demo.runtime Demo.garbled_ca))
     <> [completed_line (Demo.runtime Demo.garbled_ca) level
           user_cn ca_cn root_cn time_seconds]).
Proof.
  split; [repeat split|]. split; [repeat split|].
  intros state level user_cn ca_cn root_cn time_seconds El.
  assert (Hs : 0 <= state <= 3) by (apply levelname_valid; eauto).
  assert (C : state = 0 \/ state = 1 \/ state = 2 \/ state = 3) by lia.
  assert (H1 : exists rest,
            snd (run (Demo.runtime Demo.nameless_user))
            = ["CRITICAL - scmd: E" ++ rest])
    by (eexists; vm_compute; reflexivity).
  assert (H2 : exists rest,
            snd (run (Demo.runtime Demo.garbled_ca))
            = ["CRITICAL - scmd: E" ++ rest])
    by (eexists; vm_compute; reflexivity).
  destruct H1 as [rest1 ->]. destruct H2 as [rest2 ->].
  unfold completed_line, issued_label.
  destruct C as [-> | [-> | [-> | ->]]]; injection El as <-;
    cbn [String.append]; split; intros E; discriminate E.
Qed.

(** ** The elapsed time *)

(** C8 (as amended). The elapsed value reported as [time_seconds] on a
    completed run is, rounded to five decimals, the wall-clock time from
    the start of [main] (before the arguments are parsed and the client is
    built) to the moment the answer has been parsed and its three
    certificates loaded: the clock is read at these two moments only.  It
    is not measured when the remote call fails, answers nothing or is
    interrupted by the deadline: the clock is then read once, at the
    start. *)
Theorem C8_elapsed_time (R : Runtime) :
  (forall init args client w1 s w2 certs cu cc cr w3 user_cn ca_cn root_cn,
     prelude R (boot R) = (Ret (init, args, client), w1) ->
     getcertificate R client args w1 = (Ret (Some s), w2) ->
     parses R s w2 certs cu cc cr w3 ->
     subject_CN R cu = Some user_cn ->
     subject_CN R cc = Some ca_cn ->
     subject_CN R cr = Some root_cn ->
     (exists level,
        snd (run R) = [completed_line R level user_cn ca_cn root_cn
                         (round5 (now w3 - boot_time R))]) /\
     clock_reads (trace (snd (script R (boot R)))) = [boot_time R; now w3]) /\
  (forall init args client w1 r w2,
     prelude R (boot R) = (Ret (init, args, client), w1) ->
     getcertificate R client args w1 = (r, w2) ->
     (forall s, r <> Ret (Some s)) ->
     clock_reads (trace (snd (script R (boot R)))) = [boot_time R]).
Proof.
  split.
  - intros init args client w1 s w2 certs cu cc cr w3 user_cn ca_cn root_cn
           Ep Ef P Cu Cc Cr.
    destruct (run_completed R _ _ _ _ _ _ _ _ _ _ _ _ _ _ Ep Ef P Cu Cc Cr)
      as (level & El & Em & Epr & Ecl).
    destruct (run_exit_swallowed _ _ _ Em) as [Es Er].
    split.
    + exists level. rewrite Er. unfold log; simpl.
      now rewrite !printed_app, Epr.
    + rewrite Es. unfold log; simpl. now rewrite !clock_reads_app, Ecl.
  - intros init args client w1 r w2 Ep Ef Hr.
    destruct (prelude_returns _ _ _ _ _ _ Ep) as (_ & Ec & _).
    assert (Ec2 : clock_reads (trace w2) = [boot_time R]).
    { unfold getcertificate in Ef. now rewrite (noclock_extern _ _ _ _ Ef). }
    destruct r as [[s|] | e | | ].
    + now destruct (Hr s).
    + destruct (after_fetch _ _ _ _ _ _ _ Ep Ef) as (Em & _).
      rewrite check_none in Em.
      rewrite (proj1 (run_exit_swallowed _ _ _ Em)).
      unfold log; simpl. now rewrite clock_reads_app, Ec2.
    + assert (Em : main R (boot R) = (Raise e, w2)).
      { rewrite (main_after_prelude _ _ _ _ _ _ Ep). now apply bind_Raise. }
      rewrite script_cases, Em.
      destruct (is_SystemExit e); simpl; [exact Ec2|].
      now rewrite clock_reads_app, Ec2.
    + assert (Em : main R (boot R) = (Hang, w2)).
      { rewrite (main_after_prelude _ _ _ _ _ _ Ep). unfold bind. now rewrite Ef. }
      rewrite script_cases, Em. exact Ec2.
    + assert (Em : main R (boot R) = (Killed, w2)).
      { rewrite (main_after_prelude _ _ _ _ _ _ Ep). unfold bind. now rewrite Ef. }
      rewrite script_cases, Em. exact Ec2.
Qed.

(** C8 on a run whose remote call raises: the clock is read once. *)
Lemma C8_elapsed_time_witness :
  clock_reads (trace (snd (script (Demo.runtime Demo.refused)
                                  (boot (Demo.runtime Demo.refused)))))
  = [1000%Q] /\
  clock_reads (trace (snd (script (Demo.runtime Demo.slow_client)
                                  (boot (Demo.runtime Demo.slow_client)))))
  = [1000%Q; 1004%Q].
Proof.
  split; [|
    pose (R := Demo.runtime Demo.slow_client);
    pose (w1 := snd (prelude R (boot R)));
    pose (w2 := snd (getcertificate R tt Demo.default_args w1));
    assert (P : parses R Demo.jane w2
                  [Demo.Certificate (Some "Jane Doe");
                   Demo.Certificate (Some "ROOT CA");
                   Demo.Certificate (Some "ISSUING CA")]
                  (Some "Jane Doe") (Some "ISSUING CA") (Some "ROOT CA")
                  (World 1004 (Some 1025%Q) (Some 25)
                     [ClockRead 1000; HandlerInstalled 25; AlarmArmed 25]))
      by demo_parses;
    exact (proj2 (proj1 (C8_elapsed_time R) 1000%Q Demo.default_args tt w1
                    Demo.jane w2 _ _ _ _ _ "Jane Doe" "ISSUING CA" "ROOT CA"
                    eq_refl eq_refl P eq_refl eq_refl eq_refl))].
  apply (proj2 (C8_elapsed_time (Demo.runtime Demo.refused))
           1000%Q Demo.default_args tt
           (snd (prelude (Demo.runtime Demo.refused)
                         (boot (Demo.runtime Demo.refused))))
           (Raise (External "Exception" "connection refused"))
           (snd (getcertificate (Demo.runtime Demo.refused) tt
                   Demo.default_args
                   (snd (prelude (Demo.runtime Demo.refused)
                                 (boot (Demo.runtime Demo.refused)))))));
    [reflexivity | reflexivity | discriminate].
Defined.

(** C8 as first stated fails: when building the client takes 1 second and
    the remote call 3 seconds (from clock 1001 to clock 1004), the reported
    [time_seconds] is 4.0, not the 3 seconds of the call. *)
Lemma C8_counterexample :
  let R := Demo.runtime Demo.slow_client in
  exists w1 w2,
    prelude R (boot R) = (Ret (1000%Q, Demo.default_args, tt), w1) /\
    getcertificate R tt Demo.default_args w1 = (Ret (Some Demo.jane), w2) /\
    now w1 = 1001%Q /\ now w2 = 1004%Q /\
    snd (run R) = [completed_line R "WARNING" "Jane Doe" "ISSUING CA" "ROOT CA" 4] /\
    float_str R 4%Q = "4.0" /\
    float_str R (round5 (now w2 - now w1)) = "3.0" /\
    snd (run R) <> [completed_line R "WARNING" "Jane Doe" "ISSUING CA" "ROOT CA"
                      (round5 (now w2 - now w1))].
Proof.
  eexists _, _.
  split; [reflexivity|]. split; [reflexivity|].
  repeat split. discriminate.
Qed.

(** ** The level and the certificates *)

(** C10 (as amended). For every two runs of [check] that both parse a
    bundle of three blocks, whatever the libraries, the texts and the
    certificates are, with equal elapsed times and the same thresholds:
    if the three subjects of each bundle have a common name, both runs
    leave by [SystemExit] with the same level, the one that the threshold
    evaluation gives to the elapsed time, so that among such certificates
    the contents show in the message only; a run in which a subject has no
    common name raises TypeError instead; and whenever both runs end with
    a level, the levels are equal. *)
Theorem C10_level_of_named_certificates (R1 R2 : Runtime)
    (s1 s2 : string) (init1 init2 : Q) (warning critical : Z)
    (w1 w1' w2 w2' : world)
    certs1 cu1 cc1 cr1 certs2 cu2 cc2 cr2 :
  parses R1 s1 w1 certs1 cu1 cc1 cr1 w1' ->
  parses R2 s2 w2 certs2 cu2 cc2 cr2 w2' ->
  (round5 (now w1' - init1) == round5 (now w2' - init2))%Q ->
  (subject_CN R1 cu1 <> None -> subject_CN R1 cc1 <> None ->
   subject_CN R1 cr1 <> None ->
   subject_CN R2 cu2 <> None -> subject_CN R2 cc2 <> None ->
   subject_CN R2 cr2 <> None ->
   exists st,
     fst (check R1 (Some s1) init1 warning critical w1)
     = Raise (SystemExit (Some st)) /\
     fst (check R2 (Some s2) init2 warning critical w2)
     = Raise (SystemExit (Some st)) /\
     st = threshold_status (round5 (now w1' - init1)) warning critical) /\
  (subject_CN R1 cu1 = None \/ subject_CN R1 cc1 = None \/
   subject_CN R1 cr1 = None ->
   fst (check R1 (Some s1) init1 warning critical w1) = Raise TypeError) /\
  (subject_CN R2 cu2 = None \/ subject_CN R2 cc2 = None \/
   subject_CN R2 cr2 = None ->
   fst (check R2 (Some s2) init2 warning critical w2) = Raise TypeError) /\
  (forall st1 st2,
     fst (check R1 (Some s1) init1 warning critical w1)
     = Raise (SystemExit (Some st1)) ->
     fst (check R2 (Some s2) init2 warning critical w2)
     = Raise (SystemExit (Some st2)) ->
     st1 = st2).
Proof.
  intros P1 P2 Ee.
  assert (Hnamed : forall R s init w certs cu cc cr w',
            parses R s w certs cu cc cr w' ->
            subject_CN R cu <> None -> subject_CN R cc <> None ->
            subject_CN R cr <> None ->
            fst (check R (Some s) init warning critical w)
            = Raise (SystemExit (Some (threshold_status (round5 (now w' - init))
                                                        warning critical)))).
  { intros R s init w certs cu cc cr w' P Hu Hc Hr.
    destruct (subject_CN R cu) as [u|] eqn:Cu; [|now destruct Hu].
    destruct (subject_CN R cc) as [c|] eqn:Cc; [|now destruct Hc].
    destruct (subject_CN R cr) as [r|] eqn:Cr; [|now destruct Hr].
    destruct (check_completed R s init warning critical w _ _ _ _ _
                _ _ _ P Cu Cc Cr) as (level & _ & E).
    now rewrite E. }
  assert (Hnameless : forall R s init w certs cu cc cr w',
            parses R s w certs cu cc cr w' ->
            subject_CN R cu = None \/ subject_CN R cc = None \/
            subject_CN R cr = None ->
            fst (check R (Some s) init warning critical w) = Raise TypeError).
  { intros R s init w certs cu cc cr w' P H.
    rewrite (check_parsed _ _ _ _ _ _ _ _ _ _ _ P). cbv zeta.
    destruct (subject_CN R cu) as [u|]; [|reflexivity].
    destruct (subject_CN R cc) as [c|]; [|reflexivity].
    destruct (subject_CN R cr) as [r|]; [|reflexivity].
    destruct H as [H | [H | H]]; discriminate. }
  split; [|split; [|split]].
  - intros Hu1 Hc1 Hr1 Hu2 Hc2 Hr2.
    exists (threshold_status (round5 (now w1' - init1)) warning critical).
    split; [now apply (Hnamed R1 _ _ _ _ _ _ _ _ P1)|]. split; [|reflexivity].
    rewrite (Hnamed R2 _ _ _ _ _ _ _ _ P2 Hu2 Hc2 Hr2).
    now rewrite (threshold_status_compat _ _ warning critical Ee).
  - now apply (Hnameless R1 _ _ _ _ _ _ _ _ P1).
  - now apply (Hnameless R2 _ _ _ _ _ _ _ _ P2).
  - intros st1 st2 E1 E2.
    destruct (check_parsed_outcome R1 s1 init1 warning critical _ _ _ _ _ _ P1)
      as [T1 | S1]; [congruence|].
    destruct (check_parsed_outcome R2 s2 init2 warning critical _ _ _ _ _ _ P2)
      as [T2 | S2]; [congruence|].
    rewrite S1 in E1. rewrite S2 in E2.
    injection E1 as <-. injection E2 as <-.
    now apply threshold_status_compat.
Qed.

(** C10 on two runs that take 4 seconds, one with the bundle of Jane Doe
    and one with the bundle of John Roe: both end at level 1. *)
Lemma C10_level_of_named_certificates_witness :
  let R1 := Demo.runtime (Demo.answers_after 4) in
  let R2 := Demo.runtime (Demo.other_answer 4) in
  let w := World 1004 (Some 1025%Q) (Some 25)
             [ClockRead 1000; HandlerInstalled 25; AlarmArmed 25] in
  exists st,
    fst (check R1 (Some Demo.jane) 1000 3 6 w) = Raise (SystemExit (Some st)) /\
    fst (check R2 (Some Demo.john) 1000 3 6 w) = Raise (SystemExit (Some st)) /\
    st = 1.
Proof.
  intros R1 R2 w.
  assert (P1 : parses R1 Demo.jane w
                 [Demo.Certificate (Some "Jane Doe");
                  Demo.Certificate (Some "ROOT CA");
                  Demo.Certificate (Some "ISSUING CA")]
                 (Some "Jane Doe") (Some "ISSUING CA") (Some "ROOT CA") w)
    by demo_parses.
  assert (P2 : parses R2 Demo.john w
                 [Demo.Certificate (Some "John Roe");
                  Demo.Certificate (Some "OTHER ROOT");
                  Demo.Certificate (Some "OTHER CA")]
                 (Some "John Roe") (Some "OTHER CA") (Some "OTHER ROOT") w)
    by demo_parses.
  destruct (proj1 (C10_level_of_named_certificates R1 R2 Demo.jane Demo.john
                     1000 1000 3 6 w w w w _ _ _ _ _ _ _ _
                     P1 P2 (Qeq_refl _)))
    as (st & E1 & E2 & E3); try discriminate.
  exists st. split; [exact E1|]. split; [exact E2 | exact E3].
Defined.

(** C10 as first stated fails: after the same elapsed time (1 second) and
    with the same thresholds, the bundle of Jane Doe and a bundle whose
    first certificate has no common name both parse, but the first run is
    reported OK and the second CRITICAL (the TypeError of the missing
    name, exit code 2 against 0). *)
Lemma C10_counterexample :
  let R1 := Demo.runtime (Demo.answers_after 1) in
  let R2 := Demo.runtime Demo.nameless_user in
  let nameless := Demo.bundle [Demo.Certificate None;
                               Demo.Certificate (Some "ROOT CA");
                               Demo.Certificate (Some "ISSUING CA")] in
  let w := World 1001 (Some 1025%Q) (Some 25)
             [ClockRead 1000; HandlerInstalled 25; AlarmArmed 25] in
  parses R1 Demo.jane w
    [Demo.Certificate (Some "Jane Doe"); Demo.Certificate (Some "ROOT CA");
     Demo.Certificate (Some "ISSUING CA")]
    (Some "Jane Doe") (Some "ISSUING CA") (Some "ROOT CA") w /\
  parses R2 nameless w
    [Demo.Certificate None; Demo.Certificate (Some "ROOT CA");
     Demo.Certificate (Some "ISSUING CA")]
    None (Some "ISSUING CA") (Some "ROOT CA") w /\
  fst (check R1 (Some Demo.jane) 1000 3 6 w) = Raise (SystemExit (Some 0)) /\
  fst (check R2 (Some nameless) 1000 3 6 w) = Raise TypeError /\
  run R1 = (Exited 0, [completed_line R1 "OK" "Jane Doe" "ISSUING CA" "ROOT CA" 1]) /\
  run R2 = (Exited 2, ["CRITICAL - scmd: Error: " ++ Demo.exc_info TypeError]).
Proof.
  intros R1 R2 nameless w.
  split; [demo_parses|]. split; [demo_parses|].
  repeat split.
Qed.

(** ** The exit code *)

(** C5, on a remote call that never returns with [-t 10]: the alarm is
    armed for 15 seconds after the arguments are parsed, it fires at clock
    1015, the handler prints the UNKNOWN line and raises [SystemExit(3)];
    the guard swallows that exit and the process ends with status 0. *)
Theorem C5_deadline_exit_status :
  trace (snd (script (Demo.runtime Demo.never_answers)
                     (boot (Demo.runtime Demo.never_answers))))
  = [ClockRead 1000; HandlerInstalled 15; AlarmArmed 15; AlarmFired 1015;
     Print "UNKNOWN - scmd: Plugin timed out after 15 seconds"] /\
  fst (main (Demo.runtime Demo.never_answers)
            (boot (Demo.runtime Demo.never_answers)))
  = Raise (SystemExit (Some 3)) /\
  run (Demo.runtime Demo.never_answers)
  = (Exited 0, ["UNKNOWN - scmd: Plugin timed out after 15 seconds"]).
Proof.
  repeat split.
Qed.

(** C6, on a remote call that answers after 4 seconds with the default
    thresholds 3 and 6: the reporter prints the WARNING line and raises
    [SystemExit(1)]; the guard swallows that exit and the process ends
    with status 0.  The same happens to the CRITICAL report of an empty
    answer; only the report of an error, printed outside the guard, ends
    with its level as status. *)
Theorem C6_exit_status_swallowed :
  fst (main (Demo.runtime (Demo.answers_after 4))
            (boot (Demo.runtime (Demo.answers_after 4))))
  = Raise (SystemExit (Some 1)) /\
  run (Demo.runtime (Demo.answers_after 4))
  = (Exited 0,
     [completed_line (Demo.runtime (Demo.answers_after 4)) "WARNING"
        "Jane Doe" "ISSUING CA" "ROOT CA" 4]) /\
  fst (main (Demo.runtime Demo.empty_answer)
            (boot (Demo.runtime Demo.empty_answer)))
  = Raise (SystemExit (Some 2)) /\
  run (Demo.runtime Demo.empty_answer)
  = (Exited 0, ["CRITICAL - scmd: Impossível obter certificado"]) /\
  run (Demo.runtime Demo.refused)
  = (Exited 2, ["CRITICAL - scmd: Error: " ++
                Demo.exc_info (External "Exception" "connection refused")]).
Proof.
  repeat split.
Qed.

(** ** Examples *)

Example of_int_15 : PyString.of_int 15 = "15".
Proof. reflexivity. Qed.

Example of_int_neg : PyString.of_int (-3) = "-3".
Proof. reflexivity. Qed.

Example of_int_0 : PyString.of_int 0 = "0".
Proof. reflexivity. Qed.

Example join_three : PyString.join " " ["a"; "b"; "c"] = "a b c".
Proof. reflexivity. Qed.

Example output_ok :
  output (V := Z) "fine" 0 None None default_name w0
  = (Raise (SystemExit (Some 0)), log (Print "OK - scmd: fine") w0).
Proof. reflexivity. Qed.

Example output_full :
  output "lbl" 1 (Some ["a"; "b"]) (Some [("k", 1); ("j", -2)]) "n" w0
  = (Raise (SystemExit (Some 1)),
     log (Print "WARNING - n: lbl - a b|'k'=1 'j'=-2") w0).
Proof. reflexivity. Qed.

Example output_bad_state :
  output (V := Z) "lbl" 4 None None default_name w0
  = (Raise (RuntimeError "ERROR: State programming error."), w0).
Proof. reflexivity. Qed.

Example handle_sigalrm_15 :
  handle_sigalrm 15 w0
  = (Raise (SystemExit (Some 3)),
     log (Print "UNKNOWN - scmd: Plugin timed out after 15 seconds") w0).
Proof. reflexivity. Qed.

Example round5_examples :
  round5 (2 # 1) = (200000 # 100000)%Q /\
  round5 (1234565 # 1000000) = (123456 # 100000)%Q /\
  round5 (1234575 # 1000000) = (123458 # 100000)%Q /\
  round5 (-(1 # 3)) = (-33333 # 100000)%Q.
Proof. repeat split; reflexivity. Qed.

(** The run of the specification: an answer after 2 seconds is OK. *)
Example run_ok_after_2 :
  run (Demo.runtime (Demo.answers_after 2))
  = (Exited 0,
     [completed_line (Demo.runtime (Demo.answers_after 2)) "OK"
        "Jane Doe" "ISSUING CA" "ROOT CA" 2]).
Proof. reflexivity. Qed.

(** An answer after 7 seconds is CRITICAL. *)
Example run_critical_after_7 :
  snd (run (Demo.runtime (Demo.answers_after 7)))
  = [completed_line (Demo.runtime (Demo.answers_after 7)) "CRITICAL"
       "Jane Doe" "ISSUING CA" "ROOT CA" 7].
Proof. reflexivity. Qed.

Example repr_float5_examples :
  Demo.repr_float5 2 = "2.0" /\ Demo.repr_float5 (412345 # 100000) = "4.12345" /\
  Demo.repr_float5 (- (1 # 2)) = "-0.5" /\ Demo.repr_float5 0 = "0.0".
Proof. repeat split. Qed.

(** * Further properties of the program *)

(** ** Reasoning with pre- and postconditions *)

Lemma triple_bind {A B} (P : world -> Prop) (m : M A) (k : A -> M B)
    (Qmid : A -> world -> Prop) (Qret : B -> world -> Prop)
    (Qraise : exn -> world -> Prop) (Qhang Qkilled : Prop) :
  triple P m Qmid Qraise Qhang Qkilled ->
  (forall a, triple (Qmid a) (k a) Qret Qraise Qhang Qkilled) ->
  triple P (bind m k) Qret Qraise Qhang Qkilled.
Proof.
  intros Hm Hk w r w' HP E. unfold bind in E.
  destruct (m w) as [r1 w1] eqn:E1. pose proof (Hm _ _ _ HP E1) as H1.
  destruct r1 as [a | e | | ].
  - exact (Hk a _ _ _ H1 E).
  - injection E as <- <-. exact H1.
  - injection E as <- <-. exact H1.
  - injection E as <- <-. exact H1.
Qed.

Lemma triple_weaken {A} (P P' : world -> Prop) (m : M A)
    (Qret Qret' : A -> world -> Prop) (Qraise Qraise' : exn -> world -> Prop)
    (Qhang Qkilled : Prop) :
  (forall w, P' w -> P w) ->
  (forall a w, Qret a w -> Qret' a w) ->
  (forall e w, Qraise e w -> Qraise' e w) ->
  triple P m Qret Qraise Qhang Qkilled ->
  triple P' m Qret' Qraise' Qhang Qkilled.
Proof.
  intros HP HR HE Hm w r w' Hw E. pose proof (Hm _ _ _ (HP _ Hw) E) as H.
  destruct r; auto.
Qed.

Section Preserved.

(** [P] is kept by the statements of the program, [E] holds where they
    raise; both ignore the trace, and blocking calls keep them. *)
Variables P E : world -> Prop.
Variables Qhang Qkilled : Prop.
Hypothesis P_E : forall w, P w -> E w.
Hypothesis P_steady : steady P.
Hypothesis E_steady : steady E.
Hypothesis P_block :
  forall d, triple P (block d) (fun _ => P) (fun _ => E) Qhang Qkilled.

Local Notation "'kept' m" :=
  (triple P m (fun _ => P) (fun _ => E) Qhang Qkilled) (at level 10, m at level 9).

Lemma kept_ret {A} (a : A) : kept (ret a).
Proof. intros w r w' HP Eq. injection Eq as <- <-. exact HP. Qed.

Lemma kept_raise {A} (e : exn) : kept (@raise A e).
Proof. intros w r w' HP Eq. injection Eq as <- <-. now apply P_E. Qed.

Lemma kept_bind {A B} (m : M A) (k : A -> M B) :
  kept m -> (forall a, kept (k a)) -> kept (bind m k).
Proof. intros Hm Hk. eapply triple_bind; [exact Hm | exact Hk]. Qed.

Lemma kept_time_time : kept time_time.
Proof. intros w r w' HP Eq. injection Eq as <- <-. now apply P_steady. Qed.

Lemma kept_output {V} `{PyStr V} label state lines
    (perfdata : option (list (string * V))) name :
  kept (output label state lines perfdata name).
Proof.
  intros w r w' HP Eq.
  destruct (Z_le_dec 0 state) as [L|L]; [destruct (Z_le_dec state 3) as [U|U]|].
  - destruct (proj1 (levelname_valid state) (conj L U)) as [level El].
    rewrite (output_valid _ _ _ _ _ _ _ El) in Eq. injection Eq as <- <-.
    apply E_steady. now apply P_E.
  - rewrite output_invalid in Eq by lia. injection Eq as <- <-. now apply P_E.
  - rewrite output_invalid in Eq by lia. injection Eq as <- <-. now apply P_E.
Qed.

Lemma kept_extern {A} (c : call A) : kept (extern c).
Proof.
  apply kept_bind; [apply P_block|].
  intros _. destruct (gives c); [apply kept_ret | apply kept_raise].
Qed.

Lemma kept_index {A} (xs : list A) i : kept (index xs i).
Proof.
  unfold index. destruct (nth_error xs i); [apply kept_ret | apply kept_raise].
Qed.

Lemma kept_str_add s x : kept (str_add s x).
Proof. destruct x; [apply kept_ret | apply kept_raise]. Qed.

Lemma kept_encode x : kept (encode x).
Proof. destruct x; [apply kept_ret | apply kept_raise]. Qed.

Lemma kept_when c body : kept body -> kept (when c body).
Proof. intros Hb. destruct c; [exact Hb | apply kept_ret]. Qed.

Lemma kept_print_all lines : kept (print_all lines).
Proof.
  induction lines as [|line rest IH]; simpl; [apply kept_ret|].
  apply kept_bind; [|intros _; exact IH].
  intros w r w' HP Eq. injection Eq as <- <-. now apply P_steady.
Qed.

Lemma kept_args_parse R : kept (args_parse R).
Proof.
  unfold args_parse. apply kept_bind; [apply P_block|].
  intros _. destruct (gives (parse_args R)) as [args | e]; [apply kept_ret|].
  apply kept_bind; [|intros _; apply kept_raise].
  apply kept_when, kept_print_all.
Qed.

Lemma kept_check R result init_time warning critical :
  kept (check R result init_time warning critical).
Proof.
  unfold check, builtin_exit.
  apply kept_bind; [apply kept_when; apply kept_bind;
                    [apply kept_output | intros ?; apply kept_raise]|].
  intros ?. apply kept_bind; [apply kept_encode|]. intros ?.
  apply kept_bind; [apply kept_extern|]. intros ?.
  apply kept_bind;
    [apply kept_bind; [apply kept_index | intros ?; apply kept_extern]|].
  intros ?. apply kept_bind;
    [apply kept_bind; [apply kept_index | intros ?; apply kept_extern]|].
  intros ?. apply kept_bind;
    [apply kept_bind; [apply kept_index | intros ?; apply kept_extern]|].
  intros ?. apply kept_bind; [apply kept_time_time|]. intros ?. cbv zeta.
  apply kept_bind; [apply kept_str_add|]. intros ?.
  apply kept_bind; [apply kept_str_add|]. intros ?.
  apply kept_bind; [apply kept_str_add|]. intros ?.
  apply kept_output.
Qed.

(** What [main] does after [signal.alarm]. *)
Lemma kept_main_tail R args init :
  kept (when (verbose args) (debug) ;;
        client <- getclient R (prod args) (timeout args) ;;
        result <- getcertificate R client args ;;
        check R result init (warning args) (critical args)).
Proof.
  apply kept_bind; [apply kept_when; apply kept_ret|]. intros ?.
  apply kept_bind; [apply kept_extern|]. intros client.
  apply kept_bind; [apply kept_extern|]. intros result.
  apply kept_check.
Qed.

End Preserved.

(** ** Blocking calls and the alarm *)

Lemma steady_unarmed : steady unarmed.
Proof. intros e w H. exact H. Qed.

Lemma steady_handled : steady handled.
Proof. intros e w H. exact H. Qed.

Lemma steady_within t : steady (within t).
Proof. intros e w H. exact H. Qed.

Lemma steady_on_time t : steady (on_time t).
Proof. intros e w H. exact H. Qed.

Lemma steady_True : steady (fun _ => True).
Proof. intros e w H. exact H. Qed.

(** With no alarm pending a blocking call returns or blocks for ever. *)
Lemma block_unarmed d :
  triple unarmed (block d) (fun _ => unarmed) (fun _ _ => True) True False.
Proof.
  intros w r w' Hw E. unfold unarmed in Hw. unfold block, alarm_due in E.
  rewrite Hw in E. destruct d; simpl in E; injection E as <- <-; [exact Hw | exact I].
Qed.

(** With a handler installed a blocking call is never killed. *)
Lemma block_handled d :
  triple handled (block d) (fun _ => handled) (fun _ _ => True) True False.
Proof.
  intros w r w' Hw E. unfold handled in Hw. unfold block in E.
  destruct (alarm_due d w) as [t|].
  - destruct (handler w) as [n|] eqn:Hh; [|now destruct Hw].
    unfold handle_sigalrm in E.
    rewrite (bind_Raise _ _ _ _ _
               (output_valid _ 3 None None default_name "UNKNOWN" _ eq_refl)) in E.
    injection E as <- <-. exact I.
  - destruct d; simpl in E; injection E as <- <-; [exact Hw | exact I].
Qed.

(** With the alarm pending for [t] and its handler installed, a blocking
    call returns by [t] or is interrupted at [t]: it never blocks for
    ever. *)
Lemma block_on_time t d :
  triple (on_time t) (block d) (fun _ => on_time t) (fun _ => within t)
         False False.
Proof.
  intros w r w' (Ha & Hn & Hh) E. unfold block, alarm_due in E. rewrite Ha in E.
  destruct (handler w) as [n|] eqn:Eh; [|now destruct Hh].
  assert (Hfire :
            (handle_sigalrm n ;; wait (remaining d (t - now w)))
              (log (AlarmFired t) (World t None (Some n) (trace w)))
            = (r, w') -> within t w').
  { unfold handle_sigalrm.
    rewrite (bind_Raise _ _ _ _ _
               (output_valid _ 3 None None default_name "UNKNOWN" _ eq_refl)).
    intros E'. injection E' as <- <-. unfold within; simpl. apply Qle_refl. }
  destruct d as [q|].
  - destruct (Qle_bool (now w + q) t) eqn:Eq.
    + simpl in E. injection E as <- <-. unfold on_time, advance; simpl.
      rewrite Eh. repeat split; [exact Ha | now apply Qle_bool_iff | discriminate].
    + specialize (Hfire E). destruct r; try exact Hfire.
      * exfalso. revert E. unfold handle_sigalrm.
        rewrite (bind_Raise _ _ _ _ _
                   (output_valid _ 3 None None default_name "UNKNOWN" _ eq_refl)).
        discriminate.
      * exfalso. revert E. unfold handle_sigalrm.
        rewrite (bind_Raise _ _ _ _ _
                   (output_valid _ 3 None None default_name "UNKNOWN" _ eq_refl)).
        discriminate.
      * exfalso. revert E. unfold handle_sigalrm.
        rewrite (bind_Raise _ _ _ _ _
                   (output_valid _ 3 None None default_name "UNKNOWN" _ eq_refl)).
        discriminate.
  - specialize (Hfire E). destruct r; try exact Hfire;
      exfalso; revert E; unfold handle_sigalrm;
      rewrite (bind_Raise _ _ _ _ _
                 (output_valid _ 3 None None default_name "UNKNOWN" _ eq_refl));
      discriminate.
Qed.

(** ** How a run can end *)

(** Discharges the side conditions of the lemmas on kept properties. *)
Ltac kept_side :=
  try solve [ auto
            | apply steady_unarmed | apply steady_handled | apply steady_True
            | apply steady_within | apply steady_on_time
            | apply block_unarmed | apply block_handled | apply block_on_time
            | intros ? (_ & ? & _); assumption ].

(** [main] is never killed by the alarm: the handler is installed before
    the alarm is armed. *)
Lemma main_never_killed (R : Runtime) :
  triple unarmed (main R) (fun _ _ => True) (fun _ _ => True) True False.
Proof.
  unfold main.
  eapply triple_bind.
  { apply (kept_time_time unarmed (fun _ => True)); kept_side. }
  intros init. eapply triple_bind.
  { apply (kept_args_parse unarmed (fun _ => True) True False); kept_side. }
  intros args. eapply triple_bind with (Qmid := fun _ => handled).
  { intros w r w' _ E. injection E as <- <-. unfold handled; simpl. discriminate. }
  intros _. eapply triple_bind with (Qmid := fun _ => handled).
  { intros w r w' Hw E. unfold signal_alarm in E.
    destruct ((timeout args + 5 <? - 2 ^ 31) || (2 ^ 31 <=? timeout args + 5));
      injection E as <- <-; [exact I | exact Hw]. }
  intros _.
  eapply triple_weaken;
    [ | | | apply (kept_main_tail handled (fun _ => True) True False); kept_side ];
    auto.
Qed.



(** X2. A run ends with exit status 0 or 2, or never ends: it is never
    killed by its own alarm, never ends on a traceback, and never exits
    with 1 or 3.  Status 2 is the report of an error that escaped [main],
    and the line is then the error line; a run that never ends has printed
    nothing. *)
Theorem run_exit_status (R : Runtime) :
  (fst (run R) = Exited 0 \/ fst (run R) = Exited 2 \/
   fst (run R) = NeverTerminates) /\
  (fst (run R) = Exited 2 ->
   exists e, is_SystemExit e = false /\
             snd (run R) = ["CRITICAL - scmd: Error: " ++ exc_info_str R e]) /\
  (fst (run R) = NeverTerminates -> snd (run R) = []).
Proof.
  pose proof (main_never_killed R (boot R)) as Hk.
  destruct (main R (boot R)) as [r w'] eqn:Em.
  specialize (Hk r w' eq_refl eq_refl).
  destruct r as [[] | e | | ]; try contradiction.
  - assert (Er : run R = (Exited 0, printed (trace w')))
      by (unfold run; now rewrite script_cases, Em).
    rewrite Er; simpl. split; [auto|]. split; discriminate.
  - destruct (is_SystemExit e) eqn:He.
    + destruct e; try discriminate.
      rewrite (proj2 (run_exit_swallowed R _ _ Em)); simpl.
      split; [auto|]. split; discriminate.
    + rewrite (proj2 (run_error R e w' Em He)); simpl.
      split; [auto|]. split; [|discriminate]. intros _. exists e. now split.
  - assert (Er : run R = (NeverTerminates, printed (trace w')))
      by (unfold run; now rewrite script_cases, Em).
    rewrite Er; simpl. split; [auto|]. split; [discriminate|]. intros _.
    destruct (quiet_main R _ _ _ Em) as [P | (c & D)];
      [exact P | discriminate].
Qed.

(** [signal.alarm(n)] for a positive [n] in the range of a C int arms the
    alarm [n] seconds from now. *)
Lemma signal_alarm_arms (n : Z) (w : world) :
  0 < n < 2 ^ 31 ->
  signal_alarm n w
  = (Ret tt, log (AlarmArmed n)
               (World (now w) (Some (now w + inject_Z n)%Q) (handler w) (trace w))).
Proof.
  intros Hn. unfold signal_alarm.
  destruct (Z.ltb_spec n (- 2 ^ 31)); [lia|].
  destruct (Z.leb_spec (2 ^ 31) n); [lia|]. simpl orb. cbv iota.
  rewrite Z.mod_small by lia.
  destruct (Z.eqb_spec n 0); [lia|]. reflexivity.
Qed.

(** X3. The hard deadline: once the arguments are parsed, with
    [0 < timeout + 5 < 2^31], the run ends, with exit status 0 or 2, and it
    ends no later than [timeout + 5] seconds after the end of the argument
    parsing, whatever the client construction, the remote call and the
    parsing of the answer do (even if they never return). *)
Theorem run_ends_by_deadline (R : Runtime) (args : Args) (wa : world) :
  args_parse R (log (ClockRead (boot_time R)) (boot R)) = (Ret args, wa) ->
  0 < timeout args + 5 < 2 ^ 31 ->
  (fst (run R) = Exited 0 \/ fst (run R) = Exited 2) /\
  (now (snd (script R (boot R))) <= now wa + inject_Z (timeout args + 5))%Q.
Proof.
  intros Ea Hn.
  set (n := timeout args + 5) in *.
  set (t := (now wa + inject_Z n)%Q).
  set (wh := log (HandlerInstalled n)
               (World (now wa) (alarm wa) (Some n) (trace wa))).
  set (warm := log (AlarmArmed n)
                 (World (now wh) (Some (now wh + inject_Z n)%Q) (handler wh)
                        (trace wh))).
  assert (Em : main R (boot R)
               = (when (verbose args) (debug) ;;
                  client <- getclient R (prod args) (timeout args) ;;
                  result <- getcertificate R client args ;;
                  check R result (boot_time R) (warning args) (critical args))
                 warm).
  { unfold main.
    rewrite (bind_Ret _ _ (boot R) (log (ClockRead (boot_time R)) (boot R))
               (boot_time R)) by reflexivity.
    rewrite (bind_Ret _ _ _ _ _ Ea).
    rewrite (bind_Ret _ _ wa wh tt) by reflexivity.
    fold n. now rewrite (bind_Ret _ _ wh warm tt) by (now apply signal_alarm_arms). }
  assert (Hw : on_time t warm).
  { unfold on_time, warm, wh, t; simpl. repeat split; [|discriminate].
    rewrite <- (Qplus_0_r (now wa)) at 1. apply Qplus_le_r.
    change 0%Q with (inject_Z 0). rewrite <- Zle_Qle. lia. }
  pose proof (kept_main_tail (on_time t) (within t) False False) as Ht.
  specialize (Ht ltac:(intros ? (_ & ? & _); assumption) (steady_on_time t)
                 (steady_within t) (block_on_time t) R args (boot_time R)).
  destruct (main R (boot R)) as [r w'] eqn:Emr.
  specialize (Ht warm r w' Hw (eq_sym Em)).
  unfold run. rewrite script_cases, Emr.
  destruct r as [[] | e | | ]; try contradiction.
  - simpl. split; [auto|]. now destruct Ht as (_ & Ht & _).
  - destruct (is_SystemExit e); simpl; split; auto.
Qed.

(** X3 on the run whose remote call never returns, with [-t 10]: it ends
    by clock 1015. *)
Lemma run_ends_by_deadline_witness :
  (fst (run (Demo.runtime Demo.never_answers)) = Exited 0 \/
   fst (run (Demo.runtime Demo.never_answers)) = Exited 2) /\
  (now (snd (script (Demo.runtime Demo.never_answers)
                    (boot (Demo.runtime Demo.never_answers))))
   <= 1000 + inject_Z (10 + 5))%Q.
Proof.
  exact (run_ends_by_deadline (Demo.runtime Demo.never_answers)
           (Demo.sc_args Demo.never_answers)
           (World (1000 + 0) None None [ClockRead 1000])
           eq_refl (conj eq_refl eq_refl)).
Defined.

(** ** More on the threshold evaluation *)

(** X4. The level never improves when the answer is slower, and never
    worsens when a threshold is raised. *)
Theorem threshold_status_monotone (e e' : Q) (w w' c c' : Z) :
  ((e <= e')%Q -> threshold_status e w c <= threshold_status e' w c) /\
  (w <= w' -> threshold_status e w' c <= threshold_status e w c) /\
  (c <= c' -> threshold_status e w c' <= threshold_status e w c).
Proof.
  split; [|split].
  - intros L.
    destruct (threshold_status_spec e w c)
      as [(H2 & ->) | [(Hc & Hw & ->) | (Hc & Hw & ->)]];
    destruct (threshold_status_spec e' w c)
      as [(H2' & ->) | [(Hc' & Hw' & ->) | (Hc' & Hw' & ->)]]; try lia.
    + exfalso. apply (Qlt_irrefl (inject_Z c)).
      exact (Qlt_le_trans _ _ _ H2 (Qle_trans _ _ _ L Hc')).
    + exfalso. apply (Qlt_irrefl (inject_Z c)).
      exact (Qlt_le_trans _ _ _ H2 (Qle_trans _ _ _ L Hc')).
    + exfalso. apply (Qlt_irrefl (inject_Z w)).
      exact (Qlt_le_trans _ _ _ Hw (Qle_trans _ _ _ L Hw')).
  - intros L. rewrite Zle_Qle in L.
    destruct (threshold_status_spec e w c)
      as [(H2 & ->) | [(Hc & Hw & ->) | (Hc & Hw & ->)]];
    destruct (threshold_status_spec e w' c)
      as [(H2' & ->) | [(Hc' & Hw' & ->) | (Hc' & Hw' & ->)]]; try lia.
    + exfalso. apply (Qlt_irrefl (inject_Z c)).
      exact (Qlt_le_trans _ _ _ H2' Hc).
    + exfalso. apply (Qlt_irrefl (inject_Z c)).
      exact (Qlt_le_trans _ _ _ H2' Hc).
    + exfalso. apply (Qlt_irrefl (inject_Z w)).
      exact (Qle_lt_trans _ _ _ L (Qlt_le_trans _ _ _ Hw' Hw)).
  - intros L. rewrite Zle_Qle in L.
    destruct (threshold_status_spec e w c)
      as [(H2 & ->) | [(Hc & Hw & ->) | (Hc & Hw & ->)]];
    destruct (threshold_status_spec e w c')
      as [(H2' & ->) | [(Hc' & Hw' & ->) | (Hc' & Hw' & ->)]]; try lia.
    + exfalso. apply (Qlt_irrefl (inject_Z c)).
      exact (Qle_lt_trans _ _ _ L (Qlt_le_trans _ _ _ H2' Hc)).
    + exfalso. apply (Qlt_irrefl (inject_Z c)).
      exact (Qle_lt_trans _ _ _ L (Qlt_le_trans _ _ _ H2' Hc)).
    + exfalso. apply (Qlt_irrefl (inject_Z w)).
      exact (Qlt_le_trans _ _ _ Hw' Hw).
Qed.

(** X4 on 2 and 4 seconds at the default thresholds, and on thresholds
    raised from 3 to 5. *)
Lemma threshold_status_monotone_witness :
  threshold_status 2 3 6 <= threshold_status 4 3 6 /\
  threshold_status 4 5 6 <= threshold_status 4 3 6.
Proof.
  split.
  - apply (proj1 (threshold_status_monotone 2 4 3 3 6 6)).
    unfold Qle; simpl; lia.
  - apply (proj1 (proj2 (threshold_status_monotone 4 4 3 5 6 6))). lia.
Defined.

(** X5. WARNING needs the warning threshold strictly below the critical
    one: with [critical <= warning] the level is OK or CRITICAL, never
    WARNING. *)
Theorem warning_needs_ordered_thresholds (e : Q) (w c : Z) :
  (threshold_status e w c = 1 -> w < c) /\
  (c <= w -> threshold_status e w c = 0 \/ threshold_status e w c = 2).
Proof.
  assert (H : threshold_status e w c = 1 -> w < c).
  { intros E.
    destruct (threshold_status_spec e w c)
      as [(_ & H) | [(Hc & Hw & _) | (_ & _ & H)]]; try congruence.
    rewrite Zlt_Qlt. eapply Qlt_le_trans; eassumption. }
  split; [exact H|]. intros L.
  destruct (threshold_status_cases e w c) as [E | [E | E]]; auto.
  apply H in E. lia.
Qed.

(** X5 on thresholds given in the wrong order, [-w 6 -c 3]. *)
Lemma warning_needs_ordered_thresholds_witness :
  threshold_status 5 6 3 = 0 \/ threshold_status 5 6 3 = 2.
Proof.
  apply (proj2 (warning_needs_ordered_thresholds 5 6 3)). lia.
Defined.

(** ** Answers that do not parse into three named certificates *)

(** X6. An answer that parses into fewer than three PEM objects makes
    [check] raise IndexError (at [certs[0]] for an empty list, at
    [certs[2]] once [certs[0]] has loaded): nothing is printed by [check]
    and the clock is not read again. *)
Theorem check_short_bundle (R : Runtime) (s : string) (init_time : Q)
    (warning critical : Z) (w w1 : world) (certs : list (PemObject R)) :
  extern (pem_parse R s) w = (Ret certs, w1) ->
  (List.length certs < 3)%nat ->
  (forall p0, nth_error certs 0 = Some p0 ->
              exists cu w2, extern (load_certificate R p0) w1 = (Ret cu, w2)) ->
  exists w',
    check R (Some s) init_time warning critical w = (Raise IndexError, w') /\
    printed (trace w') = printed (trace w) /\
    clock_reads (trace w') = clock_reads (trace w).
Proof.
  intros E0 Hlen Hload.
  pose proof (ret_prints_nothing _ _ _ _ (once_extern _) E0) as P0.
  pose proof (noclock_extern _ _ _ _ E0) as C0.
  unfold check.
  rewrite (bind_Ret _ _ w w tt) by reflexivity.
  rewrite (bind_Ret _ _ w w s) by reflexivity.
  rewrite (bind_Ret _ _ _ _ _ E0).
  destruct certs as [|p0 rest].
  - exists w1. split; [reflexivity | split; assumption].
  - destruct (Hload p0 eq_refl) as (cu & w2 & E1).
    rewrite (bind_Ret _ _ w1 w2 cu)
      by (rewrite (bind_Ret _ _ w1 w1 p0) by reflexivity; exact E1).
    assert (N2 : nth_error (p0 :: rest) 2 = None).
    { apply nth_error_None. simpl in *. lia. }
    exists w2. split.
    + apply bind_Raise. apply bind_Raise. unfold index. now rewrite N2.
    + rewrite (ret_prints_nothing _ _ _ _ (once_extern _) E1),
        (noclock_extern _ _ _ _ E1). split; assumption.
Qed.

(** X6 on an answer of two certificates: the run reports the IndexError
    as a CRITICAL error. *)
Lemma check_short_bundle_witness :
  exists w',
    check (Demo.runtime two_blocks)
      (Some (Demo.bundle [Demo.Certificate (Some "Jane Doe");
                          Demo.Certificate (Some "ROOT CA")]))
      1000 3 6 w0
    = (Raise IndexError, w') /\
    printed (trace w') = printed (trace w0) /\
    clock_reads (trace w') = clock_reads (trace w0).
Proof.
  refine (check_short_bundle (Demo.runtime two_blocks)
            (Demo.bundle [Demo.Certificate (Some "Jane Doe");
                          Demo.Certificate (Some "ROOT CA")])
            1000 3 6 w0
            (World (0 + 0) None None [])
            [Demo.Certificate (Some "Jane Doe"); Demo.Certificate (Some "ROOT CA")]
            eq_refl _ _).
  - simpl. lia.
  - intros p0 E. injection E as <-. eexists _, _. reflexivity.
Defined.

(** X7. Once the answer has parsed and its three certificates are loaded,
    [check] raises TypeError iff one of the three subjects has no common
    name; it has then read the clock (the elapsed time is measured) but
    prints nothing.  Otherwise it leaves by [SystemExit] with the level of
    the threshold evaluation. *)
Theorem check_missing_common_name (R : Runtime) (s : string) (init_time : Q)
    (warning critical : Z) (w w' : world) certs cu cc cr :
  parses R s w certs cu cc cr w' ->
  (fst (check R (Some s) init_time warning critical w) = Raise TypeError <->
   subject_CN R cu = None \/ subject_CN R cc = None \/ subject_CN R cr = None) /\
  (fst (check R (Some s) init_time warning critical w) = Raise TypeError ->
   snd (check R (Some s) init_time warning critical w)
   = log (ClockRead (now w')) w') /\
  (fst (check R (Some s) init_time warning critical w) <> Raise TypeError ->
   fst (check R (Some s) init_time warning critical w)
   = Raise (SystemExit (Some (threshold_status (round5 (now w' - init_time))
                                               warning critical)))).
Proof.
  intros P.
  destruct (subject_CN R cu) as [u|] eqn:Cu;
    [destruct (subject_CN R cc) as [c|] eqn:Cc;
     [destruct (subject_CN R cr) as [r|] eqn:Cr|]|].
  - destruct (check_completed R s init_time warning critical w _ _ _ _ _
                _ _ _ P Cu Cc Cr) as (level & _ & E).
    rewrite E. simpl. split; [|split].
    + split; [discriminate|]. intros [H | [H | H]]; discriminate.
    + discriminate.
    + reflexivity.
  - rewrite (check_parsed _ _ _ _ _ _ _ _ _ _ _ P).
    cbv zeta. rewrite Cu, Cc, Cr. simpl. split; [|split].
    + split; [intros _; auto | reflexivity].
    + intros _. reflexivity.
    + intros H. now destruct H.
  - rewrite (check_parsed _ _ _ _ _ _ _ _ _ _ _ P).
    cbv zeta. rewrite Cu, Cc. simpl. split; [|split].
    + split; [intros _; auto | reflexivity].
    + intros _. reflexivity.
    + intros H. now destruct H.
  - rewrite (check_parsed _ _ _ _ _ _ _ _ _ _ _ P).
    cbv zeta. rewrite Cu. simpl. split; [|split].
    + split; [intros _; auto | reflexivity].
    + intros _. reflexivity.
    + intros H. now destruct H.
Qed.

(** X7 on an answer whose first certificate has no common name. *)
Lemma check_missing_common_name_witness :
  fst (check (Demo.runtime Demo.nameless_user)
         (Some (Demo.bundle [Demo.Certificate None;
                             Demo.Certificate (Some "ROOT CA");
                             Demo.Certificate (Some "ISSUING CA")]))
         1000 3 6 w0)
  = Raise TypeError.
Proof.
  assert (P : parses (Demo.runtime Demo.nameless_user)
                (Demo.bundle [Demo.Certificate None;
                              Demo.Certificate (Some "ROOT CA");
                              Demo.Certificate (Some "ISSUING CA")])
                w0
                [Demo.Certificate None; Demo.Certificate (Some "ROOT CA");
                 Demo.Certificate (Some "ISSUING CA")]
                None (Some "ISSUING CA") (Some "ROOT CA") w0)
    by demo_parses.
  apply (proj1 (check_missing_common_name (Demo.runtime Demo.nameless_user)
                  _ 1000 3 6 w0 w0 _ _ _ _ P)).
  left. reflexivity.
Defined.

(** ** The endpoints *)

(** X8. [get_wsdl] gives a URL for the keys 0 and 1 only (the values of
    the [-prod] flag, preproduction and production); for any other key it
    gives the default, which is a function and not a URL.  The two
    endpoints differ and both are HTTPS. *)
Theorem get_wsdl_endpoints :
  (forall env, (exists u, get_wsdl_key env = Url u) <-> env = 0 \/ env = 1) /\
  (forall env, get_wsdl_key env = DefaultLambda <-> env <> 0 /\ env <> 1) /\
  (forall b, get_wsdl_key (Z.b2z b) = Url (get_wsdl b)) /\
  get_wsdl true <> get_wsdl false /\
  (forall b, PyString.startswith "https://" (get_wsdl b) = true).
Proof.
  split; [|split; [|split; [|split]]].
  - intros env. unfold get_wsdl_key.
    destruct (Z.eqb_spec env 0); [split; eauto|].
    destruct (Z.eqb_spec env 1); [split; eauto|].
    split; [intros [u E]; discriminate | lia].
  - intros env. unfold get_wsdl_key.
    destruct (Z.eqb_spec env 0); [split; [discriminate | lia]|].
    destruct (Z.eqb_spec env 1); [split; [discriminate | lia]|].
    split; auto.
  - intros []; reflexivity.
  - discriminate.
  - intros []; reflexivity.
Qed.

(** X9. The requests a run makes: when the prelude has returned and the
    remote call has answered, the arguments are those of the command line,
    the client is the one built for the WSDL that [-prod] selects with
    [-t] as transport timeout, and the answer is that of GetCertificate for
    the application identifier [-a] and the user [-u]. *)
Theorem request_data_flow (R : Runtime) (w w1 w2 : world) init args client result :
  prelude R w = (Ret (init, args, client), w1) ->
  getcertificate R client args w1 = (Ret result, w2) ->
  gives (parse_args R) = inl args /\
  gives (zeep_Client R (get_wsdl (prod args)) (timeout args)) = inl client /\
  gives (GetCertificate R client (a args) (user args)) = inl result.
Proof.
  intros Ep Ef. unfold prelude in Ep. unfold bind at 1 in Ep. simpl in Ep.
  unfold bind at 1 in Ep.
  destruct (args_parse R _) as [[args' | | | ] wa] eqn:Ea; try discriminate.
  unfold bind at 1 in Ep. simpl in Ep. unfold bind at 1 in Ep.
  destruct (signal_alarm _ _) as [[[] | | | ] wb]; try discriminate.
  unfold bind at 1 in Ep.
  destruct (when _ _ wb) as [[[] | | | ] wd]; try discriminate.
  unfold bind in Ep.
  destruct (getclient R _ _ wd) as [[client' | | | ] wc] eqn:Ec; try discriminate.
  injection Ep as _ <- <- _.
  repeat split.
  - exact (args_parse_gives _ _ _ _ Ea).
  - exact (extern_gives _ _ _ _ Ec).
  - exact (extern_gives _ _ _ _ Ef).
Qed.

(** X9 on the run of the specification. *)
Lemma request_data_flow_witness :
  gives (parse_args (Demo.runtime (Demo.answers_after 2)))
  = inl Demo.default_args /\
  gives (zeep_Client (Demo.runtime (Demo.answers_after 2))
           (get_wsdl false) 20) = inl tt /\
  gives (GetCertificate (Demo.runtime (Demo.answers_after 2)) tt
           "app" "+351 900000000") = inl (Some Demo.jane).
Proof.
  exact (request_data_flow (Demo.runtime (Demo.answers_after 2))
           (boot (Demo.runtime (Demo.answers_after 2)))
           (snd (prelude (Demo.runtime (Demo.answers_after 2))
                         (boot (Demo.runtime (Demo.answers_after 2)))))
           (snd (getcertificate (Demo.runtime (Demo.answers_after 2)) tt
                   Demo.default_args
                   (snd (prelude (Demo.runtime (Demo.answers_after 2))
                                 (boot (Demo.runtime (Demo.answers_after 2)))))))
           1000%Q Demo.default_args tt (Some Demo.jane) eq_refl eq_refl).
Defined.

(** ** Leaving from the argument parsing *)

(** X10. When the argument parsing leaves by [SystemExit] (after the
    help of [-h] or the version of [-V], which argparse prints on standard
    output asking for status 0, or for a command line that argparse
    refuses, which prints nothing there and asks for status 2), the guard
    swallows the exit: the standard output is exactly what the parser
    printed, no handler is installed, no alarm is armed, and the process
    exits with status 0 whatever the code of the exit was. *)
Theorem exit_in_argument_parsing (R : Runtime) (d : Q) (c : option Z) :
  parse_args R = Call (Seconds d) (inr (SystemExit c)) ->
  run R = (Exited 0, parse_says R) /\
  trace (snd (script R (boot R)))
  = ClockRead (boot_time R) :: map Print (parse_says R).
Proof.
  intros Ea.
  pose proof (args_parse_unarmed R (log (ClockRead (boot_time R)) (boot R))
                eq_refl) as Ha.
  rewrite Ea in Ha. simpl in Ha.
  assert (Em : main R (boot R)
               = (Raise (SystemExit c),
                  World (boot_time R + d)%Q None None
                    (ClockRead (boot_time R) :: map Print (parse_says R)))).
  { unfold main.
    rewrite (bind_Ret _ _ (boot R) (log (ClockRead (boot_time R)) (boot R))
               (boot_time R)) by reflexivity.
    now apply bind_Raise. }
  destruct (run_exit_swallowed R _ _ Em) as [Es Er].
  rewrite Er, Es. simpl. now rewrite printed_map_Print.
Qed.

(** X10 on a command line that argparse refuses, and on [-V]. *)
Lemma exit_in_argument_parsing_witness :
  run usage_error = (Exited 0, []) /\
  run version_asked = (Exited 0, ["check_scmd.py v1.0"]).
Proof.
  split.
  - exact (proj1 (exit_in_argument_parsing usage_error 0 (Some 2) eq_refl)).
  - exact (proj1 (exit_in_argument_parsing version_asked 0 (Some 0) eq_refl)).
Defined.

(** X2 on the run whose remote call raises "connection refused". *)
Lemma run_exit_status_witness :
  exists e,
    is_SystemExit e = false /\
    snd (run (Demo.runtime Demo.refused))
    = ["CRITICAL - scmd: Error: " ++ exc_info_str (Demo.runtime Demo.refused) e].
Proof.
  exact (proj1 (proj2 (run_exit_status (Demo.runtime Demo.refused))) eq_refl).
Defined.

(** X8 on the key of [-prod]. *)
Lemma get_wsdl_endpoints_witness :
  exists u, get_wsdl_key 1 = Url u.
Proof.
  apply (proj1 get_wsdl_endpoints 1). right. reflexivity.
Defined.

(** ** A timeout that cancels the deadline *)

(** X11. With [-t -5] the alarm is set to 0 seconds, which arms nothing:
    if the remote call then never returns, the run never ends and prints
    nothing. *)
Theorem no_deadline_when_alarm_is_zero (R : Runtime) (args : Args)
    (da dc : Q) (client : Client R) :
  parse_args R = Call (Seconds da) (inl args) ->
  timeout args + 5 = 0 ->
  zeep_Client R (get_wsdl (prod args)) (timeout args)
  = Call (Seconds dc) (inl client) ->
  takes (GetCertificate R client (a args) (user args)) = Forever ->
  run R = (NeverTerminates, []).
Proof.
  intros Ea Hn Ec Ef.
  assert (Em : fst (main R (boot R)) = Hang /\
               printed (trace (snd (main R (boot R)))) = []).
  { unfold main.
    rewrite (bind_Ret _ _ (boot R) (log (ClockRead (boot_time R)) (boot R))
               (boot_time R)) by reflexivity.
    rewrite (bind_Ret _ _ _ (advance da (log (ClockRead (boot_time R)) (boot R)))
               args)
      by (unfold args_parse; rewrite Ea; reflexivity).
    rewrite Hn.
    rewrite (bind_Ret _ _ _ _ tt) by reflexivity.
    rewrite (bind_Ret _ _ _ _ tt) by reflexivity.
    rewrite (bind_Ret _ _ _ _ tt) by (destruct (verbose args); reflexivity).
    match goal with
    | |- context [bind (getclient R ?p ?t) ?k ?w] =>
        rewrite (bind_Ret (getclient R p t) k w (advance dc w) client)
          by (unfold getclient, extern; rewrite Ec; reflexivity)
    end.
    unfold bind at 1. unfold getcertificate, extern. unfold bind at 1.
    unfold block, alarm_due. rewrite Ef. simpl. split; reflexivity. }
  destruct Em as [Eh Ep]. unfold run. rewrite script_cases.
  destruct (main R (boot R)) as [r w']. simpl in Eh, Ep. subst r.
  simpl. now rewrite Ep.
Qed.

(** X11 on [-t -5] and a remote call that never returns. *)
Lemma no_deadline_when_alarm_is_zero_witness :
  run (Demo.runtime no_deadline) = (NeverTerminates, []).
Proof.
  exact (no_deadline_when_alarm_is_zero (Demo.runtime no_deadline)
           (Demo.sc_args no_deadline) 0 0 tt eq_refl eq_refl eq_refl eq_refl).
Defined.
